(** * leandrodaf/midi: the capture clients

    A shallow embedding of [internal/midi/mididarwin] (the CoreMIDI client
    [ClientMid], its earlier variant and the dummy client), of the callback,
    [StartCapture] and [Stop] of [internal/midi/midiwindows], of the facade
    [sdk/midi] and of the parts of [sdk/contracts] they use, followed by
    the properties of the capture session that the specification states.

    Conventions of the embedding.
    - A Go [byte] is a [Byte.byte]; a Go [int] and the nanosecond clock are
      [Z]; a [uint64] is a [Z] reduced modulo [2^64].
    - Channels live in a heap ([chans], a list indexed by reference); a
      [chan contracts.MIDI] value is an index into it and the nil channel
      is [None].
    - Every method is a function from the world before the call to a
      [Result]: it returns, it blocks for ever, or it panics.  Each method
      body runs as one step: the interleaving of goroutines inside a body
      is not modelled. *)

From Stdlib Require Import ZArith List Ascii String Strings.Byte Bool Lia DecimalString.
From stdpp Require Import base list.
Import ListNotations.

Open Scope Z_scope.
Open Scope string_scope.

(** ** sdk/contracts *)

(** [type MIDICommand byte]. *)
Definition MIDICommand := byte.

Definition NoteOn : MIDICommand := x90.
Definition NoteOff : MIDICommand := x80.

(** [MIDIEventFilter]: the commands to capture. *)
Record MIDIEventFilter := mkFilter { Commands : list MIDICommand }.

(** [MIDI]: one captured event. *)
Record MIDI := mkMIDI {
  Timestamp : Z;
  Command : byte;
  Note : byte;
  Velocity : byte
}.

(** [DeviceInfo]. *)
Record DeviceInfo := mkDeviceInfo {
  Name : string;
  Manufacturer : string;
  EntityName : string
}.

(** ** Errors of the package *)

Inductive error :=
| ErrNoMIDIDevices
| ErrInvalidMIDIDevice
| ErrMIDIConnectionError
| ErrCreateInputPort
| ErrIncompleteMIDIPacket
| NativeError (text : string)                 (* an error of the CoreMIDI binding *)
| Errorf_w (prefix : string) (cause : error)  (* fmt.Errorf("prefix: %w", err) *)
| Errorf_wv (sentinel cause : error).         (* fmt.Errorf("%w: %v", sentinel, err) *)

(** [err.Error()]. *)
Fixpoint Error_text (e : error) : string :=
  match e with
  | ErrNoMIDIDevices => "no MIDI devices found"
  | ErrInvalidMIDIDevice => "invalid MIDI device"
  | ErrMIDIConnectionError => "error connecting to MIDI device"
  | ErrCreateInputPort => "error creating input port"
  | ErrIncompleteMIDIPacket => "incomplete MIDI packet"
  | NativeError text => text
  | Errorf_w prefix cause => prefix ++ ": " ++ Error_text cause
  | Errorf_wv sentinel cause => Error_text sentinel ++ ": " ++ Error_text cause
  end.

(** ** The logger, as the list of entries it was handed *)

Inductive Level := InfoLevel | DebugLevel | ErrorLevel | WarnLevel | FatalLevel.

Inductive Field :=
| FInt (key : string) (val : Z)
| FString (key : string) (val : string)
| FError (key : string) (val : error).

Record LogEntry := mkLog {
  level : Level;
  message : string;
  fields : list Field
}.

(** ** Channels of [contracts.MIDI] *)

(** A channel: its buffer capacity, the events buffered and not yet
    received, the number of goroutines blocked in a receive on it, the events
    handed directly to such receivers, and whether it was closed. *)
Record Chan := mkChan {
  cap : nat;
  queue : list MIDI;
  waiting : nat;
  handed : list MIDI;
  closed : bool
}.

Definition ChanRef := nat.

(** [make(chan contracts.MIDI)]: unbuffered, open, nobody receiving. *)
Definition make_chan (capacity : nat) : Chan :=
  mkChan capacity [] 0 [] false.

(** A send that is one case of a [select] with a [default]: it panics on a
    closed channel, hands the event to a blocked receiver if there is one,
    buffers it if there is room, and is otherwise not ready. *)
Inductive SendOutcome :=
| Sent (c : Chan)
| NotReady
| SendOnClosed.

Definition trySend (e : MIDI) (c : Chan) : SendOutcome :=
  if closed c then SendOnClosed
  else if (0 <? waiting c)%nat then
    Sent (mkChan (cap c) (queue c) (pred (waiting c)) (handed c ++ [e]) false)
  else if (length (queue c) <? cap c)%nat then
    Sent (mkChan (cap c) (queue c ++ [e]) (waiting c) (handed c) false)
  else NotReady.

(** ** The native layer (github.com/youpy/go-coremidi) *)

Record Source := mkSource {
  source_Name : string;
  source_EntityName : string;
  source_Manufacturer : string
}.

Definition InputPort := nat.
Definition PortConn := nat.

(** What the binding answers during one call of the client: the sources
    enumerated, the port created, the connection made.  A Go call returns
    its value and its error together, and the client assigns the value
    before it looks at the error. *)
Record Native := mkNative {
  AllSources : list Source * option error;
  NewInputPort : InputPort * option error;
  Connect : InputPort -> Source -> option PortConn * option error
}.

(** ** ClientMid *)

(** The fields of the struct that the methods read or write.  [logger],
    [client] and [coreMIDIConfig] are set once by the constructor; the
    logger's output is the [logged] component of the world.
    - [eventChannel]: the [atomic.Value]; [None] when nothing was stored.
    - [mu]: [true] while the mutex is held.
    - [wg]: the counter of the WaitGroup.
    - [stopOnce]: [true] once the [sync.Once] has run. *)
Record ClientMid := mkClientMid {
  eventChannel : option ChanRef;
  inputPort : InputPort;
  portConn : option PortConn;
  midiEventFilter : option MIDIEventFilter;
  mu : bool;
  capturing : bool;
  wg : nat;
  stopOnce : bool
}.

(** The world a method runs in: the client, what was logged, the channel
    heap, and the connections on which [Disconnect] was called. *)
Record World := mkWorld {
  client : ClientMid;
  logged : list LogEntry;
  chans : list Chan;
  disconnected : list PortConn
}.

Definition with_client (f : ClientMid -> ClientMid) (w : World) : World :=
  mkWorld (f (client w)) (logged w) (chans w) (disconnected w).

Definition set_eventChannel (v : option ChanRef) : World -> World :=
  with_client (fun m => mkClientMid v (inputPort m) (portConn m)
    (midiEventFilter m) (mu m) (capturing m) (wg m) (stopOnce m)).
Definition set_inputPort (v : InputPort) : World -> World :=
  with_client (fun m => mkClientMid (eventChannel m) v (portConn m)
    (midiEventFilter m) (mu m) (capturing m) (wg m) (stopOnce m)).
Definition set_portConn (v : option PortConn) : World -> World :=
  with_client (fun m => mkClientMid (eventChannel m) (inputPort m) v
    (midiEventFilter m) (mu m) (capturing m) (wg m) (stopOnce m)).
Definition set_mu (v : bool) : World -> World :=
  with_client (fun m => mkClientMid (eventChannel m) (inputPort m) (portConn m)
    (midiEventFilter m) v (capturing m) (wg m) (stopOnce m)).
Definition set_capturing (v : bool) : World -> World :=
  with_client (fun m => mkClientMid (eventChannel m) (inputPort m) (portConn m)
    (midiEventFilter m) (mu m) v (wg m) (stopOnce m)).
Definition set_wg (v : nat) : World -> World :=
  with_client (fun m => mkClientMid (eventChannel m) (inputPort m) (portConn m)
    (midiEventFilter m) (mu m) (capturing m) v (stopOnce m)).
Definition set_stopOnce (v : bool) : World -> World :=
  with_client (fun m => mkClientMid (eventChannel m) (inputPort m) (portConn m)
    (midiEventFilter m) (mu m) (capturing m) (wg m) v).

Definition set_chans (v : list Chan) (w : World) : World :=
  mkWorld (client w) (logged w) v (disconnected w).

(** ** Method bodies as state transformers *)

Inductive Result (A : Type) :=
| Ok (a : A) (w : World)
| Blocked (w : World)                    (* the goroutine never gets further *)
| Panicked (text : string) (w : World).
Arguments Ok {A} a w.
Arguments Blocked {A} w.
Arguments Panicked {A} text w.

Definition Go (A : Type) := World -> Result A.

Definition ret {A} (a : A) : Go A := fun w => Ok a w.

Definition bind {A B} (c : Go A) (k : A -> Go B) : Go B := fun w =>
  match c w with
  | Ok a w' => k a w'
  | Blocked w' => Blocked w'
  | Panicked text w' => Panicked text w'
  end.

Declare Scope go_scope.
Delimit Scope go_scope with go.
Notation "x <- c ;; k" := (bind c (fun x => k))
  (at level 100, c at next level, k at level 200, right associativity) : go_scope.
Notation "c ;; k" := (bind c (fun _ => k))
  (at level 100, k at level 200, right associativity) : go_scope.
Open Scope go_scope.

(** A plain update of the world. *)
Definition modify (f : World -> World) : Go unit := fun w => Ok tt (f w).

(** [defer d]: [d] runs when the body returns and when it panics, not when
    it never gets to its end. *)
Definition deferring {A} (d : World -> World) (body : Go A) : Go A := fun w =>
  match body w with
  | Ok a w' => Ok a (d w')
  | Blocked w' => Blocked w'
  | Panicked text w' => Panicked text (d w')
  end.

(** [m.logger.Info], [Warn], [Error]. *)
Definition log (l : Level) (text : string) (fs : list Field) : Go unit :=
  modify (fun w => mkWorld (client w) (logged w ++ [mkLog l text fs])
                           (chans w) (disconnected w)).

(** [m.mu.Lock()]: a [sync.Mutex] is not reentrant; locking it while it is
    held blocks, and here nobody else will release it. *)
Definition mu_Lock : Go unit := fun w =>
  if mu (client w) then Blocked w else Ok tt (set_mu true w).

(** [m.mu.Lock(); defer m.mu.Unlock()]. *)
Definition locked {A} (body : Go A) : Go A :=
  mu_Lock ;; deferring (set_mu false) body.

(** [m.wg.Add(1); defer m.wg.Done()]. *)
Definition counted {A} (body : Go A) : Go A :=
  modify (fun w => set_wg (S (wg (client w))) w) ;;
  deferring (fun w => set_wg (pred (wg (client w))) w) body.

(** [m.wg.Wait()]: returns at once when no callback is counted; with one
    counted it waits for a [Done] that no step of this model provides. *)
Definition wg_Wait : Go unit := fun w =>
  if (wg (client w) =? 0)%nat then Ok tt w else Blocked w.

(** [m.stopOnce.Do(f)]. *)
Definition stopOnce_Do (f : Go unit) : Go unit := fun w =>
  if stopOnce (client w) then Ok tt w
  else deferring (set_stopOnce true) f w.

(** [m.portConn.Disconnect()]. *)
Definition Disconnect (c : PortConn) : Go unit :=
  modify (fun w => mkWorld (client w) (logged w) (chans w) (disconnected w ++ [c])).

(** Reading a field of the client. *)
Definition read {A} (f : ClientMid -> A) : Go A := fun w => Ok (f (client w)) w.

(** [l[i]]: Go panics when the index is out of range. *)
Definition index {A} (l : list A) (i : nat) : Go A := fun w =>
  match l !! i with
  | Some x => Ok x w
  | None => Panicked "index out of range" w
  end.

(** [make(chan contracts.MIDI, capacity)]: a new channel at the end of the heap. *)
Definition make (capacity : nat) : Go ChanRef := fun w =>
  Ok (length (chans w)) (set_chans (chans w ++ [make_chan capacity]) w).

(** ** NewMIDIClient *)

(** [coremidi.NewClient] either fails, and no client is made, or the struct
    is built from the options with every other field at its zero value. *)
Definition NewMIDIClient (filter : option MIDIEventFilter)
    (newClient : option error) (heap : list Chan) : World + error :=
  match newClient with
  | Some err => inr err
  | None =>
      inl (mkWorld (mkClientMid None 0%nat None filter false false 0%nat false)
                   [mkLog InfoLevel "MIDI client successfully created" []]
                   heap [])
  end.

(** ** ListDevices *)

Definition ListDevices (native : Native) : Go (list DeviceInfo * option error) :=
  let '(sources, err) := AllSources native in
  match err with
  | Some e => ret ([], Some (Errorf_w "error listing MIDI sources" e))
  | None =>
      if (length sources =? 0)%nat then
        log WarnLevel (Error_text ErrNoMIDIDevices) [] ;;
        ret ([], Some ErrNoMIDIDevices)
      else
        ret (map (fun source =>
                    mkDeviceInfo (source_Name source) (source_Manufacturer source)
                                 (source_EntityName source)) sources,
             None)
  end.

(** ** SelectDevice *)

Definition SelectDevice (deviceID : Z) (native : Native) : Go (option error) :=
  locked (
    let '(sources, err) := AllSources native in
    match err with
    | Some e => ret (Some (Errorf_w "error retrieving MIDI sources" e))
    | None =>
        if ((deviceID <? 0) || (deviceID >=? Z.of_nat (length sources)))%Z then
          log ErrorLevel (Error_text ErrInvalidMIDIDevice) [] ;;
          ret (Some ErrInvalidMIDIDevice)
        else
          pc <- read portConn ;;
          match pc with
          | Some c => Disconnect c ;; modify (set_portConn None)
          | None => ret tt
          end ;;
          source <- index sources (Z.to_nat deviceID) ;;
          log InfoLevel "MIDI device selected"
              [FInt "deviceID" deviceID; FString "deviceName" (source_Name source)] ;;
          let '(port, err) := NewInputPort native in
          modify (set_inputPort port) ;;
          match err with
          | Some e =>
              log ErrorLevel (Error_text ErrCreateInputPort) [] ;;
              ret (Some (Errorf_wv ErrCreateInputPort e))
          | None =>
              ip <- read inputPort ;;
              let '(conn, err) := Connect native ip source in
              modify (set_portConn conn) ;;
              match err with
              | Some e =>
                  log ErrorLevel (Error_text ErrMIDIConnectionError) [] ;;
                  ret (Some (Errorf_wv ErrMIDIConnectionError e))
              | None =>
                  log InfoLevel "MIDI device successfully connected" [] ;;
                  ret None
              end
          end
    end).

(** ** handleMIDIMessage *)

(** [isCommandAllowed]: is the command one of the allowed commands. *)
Fixpoint isCommandAllowed (command : byte) (allowedCommands : list MIDICommand) : bool :=
  match allowedCommands with
  | [] => false
  | allowedCommand :: rest =>
      if Byte.eqb command allowedCommand then true
      else isCommandAllowed command rest
  end.

(** [uint64(x)] of an [int64]. *)
Definition uint64 (x : Z) : Z := x mod 2 ^ 64.

(** [select { case eventChannel <- event: default: Warn(...) }].  A reference
    that is not in the heap stands for no channel at all, on which, as on a
    nil channel, a send is never ready. *)
Definition send_or_drop (eventChannel : ChanRef) (event : MIDI) : Go unit := fun w =>
  match chans w !! eventChannel with
  | Some c =>
      match trySend event c with
      | Sent c' => Ok tt (set_chans (<[eventChannel := c']> (chans w)) w)
      | NotReady => log WarnLevel "Event buffer full; dropping MIDI event" [] w
      | SendOnClosed => Panicked "send on closed channel" w
      end
  | None => log WarnLevel "Event buffer full; dropping MIDI event" [] w
  end.

(** The guard of the callback,
    [m.midiEventFilter != nil && !isCommandAllowed(event.Command, m.midiEventFilter.Commands)]:
    the event is dropped when it holds. *)
Definition filtered_out (f : option MIDIEventFilter) (command : byte) : bool :=
  match f with
  | Some filter => negb (isCommandAllowed command (Commands filter))
  | None => false
  end.

(** The callback of the input port.  [Data] is [packet.Data] and [now] is
    [time.Now().UTC().UnixNano()] as read inside the call. *)
Definition handleMIDIMessage (Data : list byte) (now : Z) : Go unit :=
  counted (
    ch <- read eventChannel ;;
    match ch with
    | None => log WarnLevel "eventChannel not initialized or of invalid type" []
    | Some eventChannel =>
        if (3 <=? length Data)%nat then
          d0 <- index Data 0 ;;
          d1 <- index Data 1 ;;
          d2 <- index Data 2 ;;
          let event := mkMIDI (uint64 now) d0 d1 d2 in
          f <- read midiEventFilter ;;
          if filtered_out f (Command event) then ret tt
          else send_or_drop eventChannel event
        else
          log WarnLevel (Error_text ErrIncompleteMIDIPacket) []
    end).

(** ** Stop and StartCapture *)

Definition Stop : Go (option error) :=
  stopOnce_Do (
    log InfoLevel "Stopping MIDI capture" [] ;;
    locked (
      c <- read capturing ;;
      if c then
        modify (set_capturing false) ;;
        pc <- read portConn ;;
        match pc with
        | Some conn => Disconnect conn ;; modify (set_portConn None)
        | None => ret tt
        end ;;
        dummyChannel <- make 0 ;;
        modify (set_eventChannel (Some dummyChannel)) ;;
        log InfoLevel "MIDI capture stopped" [] ;;
        wg_Wait
      else ret tt)) ;;
  ret None.

Definition StartCapture (eventChannel : option ChanRef) : Go unit :=
  locked (
    match eventChannel with
    | None => log ErrorLevel "StartCapture called with nil eventChannel" []
    | Some ch =>
        c <- read capturing ;;
        (if c then
           log WarnLevel "Capture already started; attempting to stop existing capture" [] ;;
           err <- Stop ;;
           match err with
           | Some e => log ErrorLevel "Failed to stop existing capture" [FError "error" e]
           | None => ret tt
           end
         else ret tt) ;;
        log InfoLevel "Starting MIDI event capture" [] ;;
        modify (set_eventChannel (Some ch)) ;;
        modify (set_capturing true)
    end).

(** ** Worlds used in examples *)

(** The world [NewMIDIClient] leaves when [coremidi.NewClient] succeeds. *)
Definition fresh (filter : option MIDIEventFilter) (heap : list Chan) : World :=
  mkWorld (mkClientMid None 0%nat None filter false false 0%nat false)
          [mkLog InfoLevel "MIDI client successfully created" []] heap [].

(** A native layer with one source, on which everything succeeds. *)
Definition oneSource : Native :=
  mkNative ([mkSource "Keys" "Keys Entity" "Acme"], None) (1%nat, None)
           (fun _ _ => (Some 7%nat, None)).

(** The world with some more entries logged and nothing else changed. *)
Definition logging (entries : list LogEntry) (w : World) : World :=
  mkWorld (client w) (logged w ++ entries) (chans w) (disconnected w).

(** Between two calls made one after the other the mutex is free and no
    callback is counted. *)
Definition idle (w : World) : Prop :=
  mu (client w) = false /\ wg (client w) = 0%nat.

(** ** Definitions used in the statements *)

(** What one call of the callback does: the counter of the WaitGroup goes up
    and down again, so only the cases of the body remain. *)
Definition callback (Data : list byte) (now : Z) (w : World) : Result unit :=
  match eventChannel (client w) with
  | None =>
      Ok tt (logging [mkLog WarnLevel "eventChannel not initialized or of invalid type" []] w)
  | Some ch =>
      match Data with
      | d0 :: d1 :: d2 :: _ =>
          if filtered_out (midiEventFilter (client w)) d0 then Ok tt w
          else send_or_drop ch (mkMIDI (uint64 now) d0 d1 d2) w
      | _ => Ok tt (logging [mkLog WarnLevel "incomplete MIDI packet" []] w)
      end
  end.

(** [status & 0xF0]: the status byte with its channel nibble cleared. *)
Definition status_nibble (status : byte) : byte :=
  match Byte.of_N (N.land (Byte.to_N status) 240) with
  | Some b => b
  | None => x00
  end.

(** The filter as the specification words it: everything passes when the
    filter is absent or its set is empty, otherwise a command passes when
    its status nibble is in the set. *)
Definition Allows_spec (f : option MIDIEventFilter) (command : byte) : bool :=
  match f with
  | None => true
  | Some filter =>
      match Commands filter with
      | [] => true
      | cs => existsb (Byte.eqb (status_nibble command)) cs
      end
  end.

(** The connection held, if any, as a list. *)
Definition conn_list (pc : option PortConn) : list PortConn :=
  match pc with
  | Some c => [c]
  | None => []
  end.

(** The world [Stop] leaves behind when it is called on an idle client:
    nothing changes when the [sync.Once] has run; otherwise the body runs,
    and shuts capture down only when the client is capturing. *)
Definition after_Stop (w : World) : World :=
  let m := client w in
  if stopOnce m then w
  else if capturing m then
    mkWorld (mkClientMid (Some (length (chans w))) (inputPort m) None
                         (midiEventFilter m) false false (wg m) true)
            (logged w ++ [mkLog InfoLevel "Stopping MIDI capture" [];
                          mkLog InfoLevel "MIDI capture stopped" []])
            (chans w ++ [make_chan 0])
            (disconnected w ++ conn_list (portConn m))
  else
    set_stopOnce true (logging [mkLog InfoLevel "Stopping MIDI capture" []] w).

(** [n] calls of [Stop] one after the other, with the errors they return. *)
Fixpoint Stop_times (n : nat) : Go (list (option error)) :=
  match n with
  | O => ret []
  | S k => e <- Stop ;; es <- Stop_times k ;; ret (e :: es)
  end.

(** Calls of the callback one after the other. *)
Fixpoint callbacks (cbs : list (list byte * Z)) : Go unit :=
  match cbs with
  | [] => ret tt
  | (Data, now) :: rest => handleMIDIMessage Data now ;; callbacks rest
  end.

(** The entries with which the body of [Stop] announces itself. *)
Definition stopping_entries (l : list LogEntry) : list LogEntry :=
  List.filter (fun e => String.eqb (message e) "Stopping MIDI capture") l.

(** The world in which a call ended, however it ended. *)
Definition world_of {A} (r : Result A) : World :=
  match r with
  | Ok _ w => w
  | Blocked w => w
  | Panicked _ w => w
  end.

(** The calls made on a client, by its owner and by the native layer. *)
Inductive Op :=
| DoSelectDevice (deviceID : Z) (native : Native)
| DoStartCapture (eventChannel : option ChanRef)
| DoStop
| DoCallback (Data : list byte) (now : Z).

(** One call, its returned value dropped. *)
Definition perform (o : Op) : Go unit :=
  match o with
  | DoSelectDevice deviceID native => _ <- SelectDevice deviceID native ;; ret tt
  | DoStartCapture eventChannel => StartCapture eventChannel
  | DoStop => _ <- Stop ;; ret tt
  | DoCallback Data now => handleMIDIMessage Data now
  end.

(** The worlds reached from a new client by calls that returned. *)
Inductive reachable : World -> Prop :=
| reach_new (filter : option MIDIEventFilter) (heap : list Chan) :
    reachable (fresh filter heap)
| reach_op (w w' : World) (o : Op) :
    reachable w -> perform o w = Ok tt w' -> reachable w'.

(** No send of the callback can succeed: nothing is stored, or what is
    stored is the unbuffered channel that [Stop] made for itself. *)
Definition quiet (w : World) : Prop :=
  match eventChannel (client w) with
  | None => True
  | Some d => chans w !! d = Some (make_chan 0)
  end.

(** Between calls the client is idle, and while it is not capturing it is
    quiet. *)
Definition settled (w : World) : Prop :=
  idle w /\ (capturing (client w) = false -> quiet w).

(** ** The earlier variant of the client

    The repository holds a second copy of the Darwin client, without
    WaitGroup and [sync.Once]: [Stop] delegates to [stopCapture], which clears
    the stored channel with [m.eventChannel.Store(nil)].  An [atomic.Value]
    panics on a nil store.  [StartCapture] does not take the mutex. *)
Module Legacy.

Definition handleMIDIMessage (Data : list byte) (now : Z) : Go unit :=
  ch <- read eventChannel ;;
  match ch with
  | None => log WarnLevel "eventChannel not initialized or of invalid type" []
  | Some eventChannel =>
      if (3 <=? length Data)%nat then
        d0 <- index Data 0 ;;
        d1 <- index Data 1 ;;
        d2 <- index Data 2 ;;
        let event := mkMIDI (uint64 now) d0 d1 d2 in
        f <- read midiEventFilter ;;
        if filtered_out f (Command event) then ret tt
        else send_or_drop eventChannel event
      else
        log WarnLevel (Error_text ErrIncompleteMIDIPacket) []
  end.

(** [m.eventChannel.Store(nil)]. *)
Definition Store_nil : Go unit := fun w =>
  Panicked "sync/atomic: store of nil value into Value" w.

Definition stopCapture : Go (option error) :=
  locked (
    pc <- read portConn ;;
    match pc with
    | Some conn => Disconnect conn ;; modify (set_portConn None)
    | None => ret tt
    end ;;
    ch <- read eventChannel ;;
    match ch with
    | Some _ => Store_nil ;; modify (set_capturing false)
    | None => ret tt
    end ;;
    log InfoLevel "MIDI capture stopped" [] ;;
    ret None).

Definition Stop : Go (option error) :=
  log InfoLevel "Stopping MIDI capture" [] ;;
  stopCapture.

Definition StartCapture (eventChannel : option ChanRef) : Go unit :=
  match eventChannel with
  | None => log ErrorLevel "StartCapture called with nil eventChannel" []
  | Some ch =>
      c <- read capturing ;;
      (if c then
         log WarnLevel "Capture already started; attempting to stop existing capture" [] ;;
         err <- Stop ;;
         match err with
         | Some e => log ErrorLevel "Failed to stop existing capture" [FError "error" e]
         | None => ret tt
         end
       else ret tt) ;;
      log InfoLevel "Starting MIDI event capture" [] ;;
      modify (set_eventChannel (Some ch)) ;;
      modify (set_capturing true)
  end.

End Legacy.

(** ** The owner's side of a channel *)

(** [close(ch)], as the example programs do after [Stop]: closing a nil or
    a closed channel panics; the receivers blocked on the channel are
    released. *)
Definition close_chan (ch : option ChanRef) : Go unit := fun w =>
  match ch with
  | None => Panicked "close of nil channel" w
  | Some r =>
      match chans w !! r with
      | None => Panicked "close of nil channel" w
      | Some c =>
          if closed c then Panicked "close of closed channel" w
          else Ok tt (set_chans
                        (<[r := mkChan (cap c) (queue c) 0 (handed c) true]> (chans w)) w)
      end
  end.

(** The event a payload gives rise to, if it has three bytes and passes
    the filter. *)
Definition passing (f : option MIDIEventFilter) (cb : list byte * Z) : option MIDI :=
  match cb with
  | (d0 :: d1 :: d2 :: _, now) =>
      if filtered_out f d0 then None else Some (mkMIDI (uint64 now) d0 d1 d2)
  | _ => None
  end.

(** ** sdk/contracts: the options *)

(** A [contracts.Logger] value, by its identity; the nil interface is
    [None] where a logger may be missing.  The logging methods of a logger
    that is not nil are taken to return; what [SetLevel] does is given to
    [applyDefaultOptions]. *)
Definition Logger := nat.

(** [type LogLevel int], with the constants numbered by [iota]. *)
Definition LogLevel := Z.

Definition LogLevel_of (l : Level) : LogLevel :=
  match l with
  | InfoLevel => 0
  | DebugLevel => 1
  | ErrorLevel => 2
  | WarnLevel => 3
  | FatalLevel => 4
  end.

(** [CoreMIDIConfig]. *)
Record CoreMIDIConfig := mkCoreMIDIConfig { ClientName : string }.

(** [ClientOptions]; the fields carry the prefix [opt_] here, their Go names
    being the names of their types.  The two pointer fields are nil when
    [None]. *)
Record ClientOptions := mkClientOptions {
  opt_Logger : option Logger;
  opt_LogLevel : LogLevel;
  opt_LogFilePath : string;
  opt_MIDIEventFilter : option MIDIEventFilter;
  opt_CoreMIDIConfig : option CoreMIDIConfig
}.

(** A call of a function the caller handed in (an option, a method of the
    logger), or of the facade itself: it returns, it panics on a nil
    dereference, or it does not return for a reason of the callee's own (a
    panic raised there, a loop). *)
Inductive Call (A : Type) :=
| Returns (a : A)
| PanicsOnNil
| NoReturn.
Arguments Returns {A} a.
Arguments PanicsOnNil {A}.
Arguments NoReturn {A}.

(** [type Option func(ptr to ClientOptions)].  A value of a function type is
    nil or a function; a function is given by what a call does to the
    options it is pointed at. *)
Inductive Option :=
| nil_Option
| func (body : ClientOptions -> Call ClientOptions).

(** [opt(options)]: calling the nil function panics. *)
Definition call_Option (opt : Option) (options : ClientOptions) : Call ClientOptions :=
  match opt with
  | nil_Option => PanicsOnNil
  | func body => body options
  end.

Definition WithLogger (l : option Logger) : Option := func (fun opts =>
  Returns (mkClientOptions l (opt_LogLevel opts) (opt_LogFilePath opts)
                           (opt_MIDIEventFilter opts) (opt_CoreMIDIConfig opts))).

Definition WithLogLevel (level : LogLevel) : Option := func (fun opts =>
  Returns (mkClientOptions (opt_Logger opts) level (opt_LogFilePath opts)
                           (opt_MIDIEventFilter opts) (opt_CoreMIDIConfig opts))).

Definition WithMIDIEventFilter (filter : MIDIEventFilter) : Option := func (fun opts =>
  Returns (mkClientOptions (opt_Logger opts) (opt_LogLevel opts) (opt_LogFilePath opts)
                           (Some filter) (opt_CoreMIDIConfig opts))).

Definition WithCoreMIDIConfig (config : CoreMIDIConfig) : Option := func (fun opts =>
  Returns (mkClientOptions (opt_Logger opts) (opt_LogLevel opts) (opt_LogFilePath opts)
                           (opt_MIDIEventFilter opts) (Some config))).

(** The four options of the package as data, for statements about lists
    of them: each sets one field. *)
Inductive PackageOption :=
| OfLogger (l : option Logger)
| OfLogLevel (level : LogLevel)
| OfMIDIEventFilter (filter : MIDIEventFilter)
| OfCoreMIDIConfig (config : CoreMIDIConfig).

Definition With (o : PackageOption) : Option :=
  match o with
  | OfLogger l => WithLogger l
  | OfLogLevel level => WithLogLevel level
  | OfMIDIEventFilter filter => WithMIDIEventFilter filter
  | OfCoreMIDIConfig config => WithCoreMIDIConfig config
  end.

Inductive OptionField := LoggerField | LogLevelField | MIDIEventFilterField | CoreMIDIConfigField.

Definition sets (o : PackageOption) : OptionField :=
  match o with
  | OfLogger _ => LoggerField
  | OfLogLevel _ => LogLevelField
  | OfMIDIEventFilter _ => MIDIEventFilterField
  | OfCoreMIDIConfig _ => CoreMIDIConfigField
  end.

Definition same_field (a b : OptionField) : bool :=
  match a, b with
  | LoggerField, LoggerField
  | LogLevelField, LogLevelField
  | MIDIEventFilterField, MIDIEventFilterField
  | CoreMIDIConfigField, CoreMIDIConfigField => true
  | _, _ => false
  end.

(** The options hold what the option [o] set. *)
Definition holds (o : PackageOption) (options : ClientOptions) : Prop :=
  match o with
  | OfLogger l => opt_Logger options = l
  | OfLogLevel level => opt_LogLevel options = level
  | OfMIDIEventFilter filter => opt_MIDIEventFilter options = Some filter
  | OfCoreMIDIConfig config => opt_CoreMIDIConfig options = Some config
  end.

(** ** sdk/midi: defaults, the factory, the constructor *)

(** A call of a constructor that returns, or that dereferences nil. *)
Inductive Outcome (A : Type) :=
| Returned (a : A)
| NilDereference.
Arguments Returned {A} a.
Arguments NilDereference {A}.

Definition Call_of_Outcome {A} (o : Outcome A) : Call A :=
  match o with
  | Returned a => Returns a
  | NilDereference => PanicsOnNil
  end.

(** [&contracts.ClientOptions{}]. *)
Definition zero_options : ClientOptions := mkClientOptions None 0 "" None None.

(** [for _, opt := range opts { opt(options) }]: the first call that does
    not return ends the loop and the function around it. *)
Fixpoint apply_options (opts : list Option) (options : ClientOptions)
    : Call ClientOptions :=
  match opts with
  | [] => Returns options
  | opt :: rest =>
      match call_Option opt options with
      | Returns options' => apply_options rest options'
      | PanicsOnNil => PanicsOnNil
      | NoReturn => NoReturn
      end
  end.

(** The three defaults of [applyDefaultOptions], in its order: the logger
    that [logger.NewZapLogger()] makes, [InfoLevel], and the client name
    ["GO MIDI Client"]. *)
Definition with_defaults (NewZapLogger : Logger) (options : ClientOptions)
    : ClientOptions :=
  let options :=
    match opt_Logger options with
    | None => mkClientOptions (Some NewZapLogger) (opt_LogLevel options)
                (opt_LogFilePath options) (opt_MIDIEventFilter options)
                (opt_CoreMIDIConfig options)
    | Some _ => options
    end in
  let options :=
    if (opt_LogLevel options =? 0)%Z
    then mkClientOptions (opt_Logger options) (LogLevel_of InfoLevel)
           (opt_LogFilePath options) (opt_MIDIEventFilter options)
           (opt_CoreMIDIConfig options)
    else options in
  match opt_CoreMIDIConfig options with
  | None => mkClientOptions (opt_Logger options) (opt_LogLevel options)
              (opt_LogFilePath options) (opt_MIDIEventFilter options)
              (Some (mkCoreMIDIConfig "GO MIDI Client"))
  | Some _ => options
  end.

(** [applyDefaultOptions].  [NewZapLogger] is the logger that
    [logger.NewZapLogger()] makes, and [SetLevel] what the call
    [options.Logger.SetLevel(options.LogLevel)] does on a given logger: the
    method is the logger's own, and on an interface value that holds a nil
    pointer those of both loggers of the repository dereference it.
    Returned with the options and the nil error is that one call made on the
    logger. *)
Definition applyDefaultOptions (NewZapLogger : Logger)
    (SetLevel : Logger -> LogLevel -> Call unit) (opts : list Option)
    : Call (ClientOptions * option error * (Logger * LogLevel)) :=
  match apply_options opts zero_options with
  | Returns given =>
      let options := with_defaults NewZapLogger given in
      match opt_Logger options with
      | None => PanicsOnNil
      | Some l =>
          match SetLevel l (opt_LogLevel options) with
          | Returns _ => Returns (options, None, (l, opt_LogLevel options))
          | PanicsOnNil => PanicsOnNil
          | NoReturn => NoReturn
          end
      end
  | PanicsOnNil => PanicsOnNil
  | NoReturn => NoReturn
  end.

(** The errors of the facade: those of a client, a plain [fmt.Errorf], and
    [fmt.Errorf("%w: %s", ErrUnsupportedOS, runtime.GOOS)]. *)
Inductive midi_error :=
| ClientError (e : error)
| Errorf (text : string)
| UnsupportedOS (goos : string).

(** The dummy clients hold a logger and nothing else. *)
Record DummyMIDIClient := mkDummy { dummy_logged : list LogEntry }.

(** The clients behind [contracts.ClientMIDI]; [W] is the client of the
    Windows build. *)
Inductive ClientMIDI (W : Type) :=
| CoreMIDIClient (w : World)
| DarwinDummy (d : DummyMIDIClient)
| WindowsDummy (d : DummyMIDIClient)
| WindowsClient (c : W).
Arguments CoreMIDIClient {W} w.
Arguments DarwinDummy {W} d.
Arguments WindowsDummy {W} d.
Arguments WindowsClient {W} c.

(** [mididarwin.NewMIDIClient] of the darwin build, from the options.
    [options.CoreMIDIConfig.ClientName] and [options.Logger.Info] dereference
    their field; [coremidi_NewClient] is the answer of the binding for a
    client name. *)
Definition mididarwin_NewMIDIClient {W} (coremidi_NewClient : string -> option error)
    (heap : list Chan) (options : ClientOptions)
    : Outcome (ClientMIDI W + midi_error) :=
  match opt_CoreMIDIConfig options with
  | None => NilDereference
  | Some config =>
      match NewMIDIClient (opt_MIDIEventFilter options)
                          (coremidi_NewClient (ClientName config)) heap with
      | inr err => Returned (inr (ClientError err))
      | inl w =>
          match opt_Logger options with
          | None => NilDereference
          | Some _ => Returned (inl (CoreMIDIClient w))
          end
      end
  end.

(** The constructor of a dummy client: it logs which dummy it is. *)
Definition dummy_NewMIDIClient (text : string) (options : ClientOptions)
    : Outcome DummyMIDIClient :=
  match opt_Logger options with
  | None => NilDereference
  | Some _ => Returned (mkDummy [mkLog InfoLevel text []])
  end.

(** The methods of both dummy clients. *)
Definition dummy_warn (text : string) (d : DummyMIDIClient) : DummyMIDIClient :=
  mkDummy (dummy_logged d ++ [mkLog WarnLevel text []]).

Definition dummy_ListDevices (d : DummyMIDIClient)
    : list DeviceInfo * option midi_error * DummyMIDIClient :=
  ([], Some (Errorf "MIDI functionality is not available on this platform"),
   dummy_warn "ListDevices called on dummy MIDI client" d).

Definition dummy_SelectDevice (deviceID : Z) (d : DummyMIDIClient)
    : option midi_error * DummyMIDIClient :=
  (Some (Errorf "MIDI functionality is not available on this platform"),
   dummy_warn "SelectDevice called on dummy MIDI client" d).

Definition dummy_StartCapture (eventChannel : option ChanRef) (d : DummyMIDIClient)
    : DummyMIDIClient :=
  dummy_warn "StartCapture called on dummy MIDI client" d.

Definition dummy_Stop (d : DummyMIDIClient) : option midi_error * DummyMIDIClient :=
  (None, dummy_warn "Stop called on dummy MIDI client" d).

(** What the name [mididarwin.NewMIDIClient] stands for in a build for
    [GOOS]: the file with the tag [darwin] or the one with [!darwin]. *)
Definition mididarwin_pkg {W} (GOOS : string)
    (coremidi_NewClient : string -> option error) (heap : list Chan)
    (options : ClientOptions) : Outcome (ClientMIDI W + midi_error) :=
  if String.eqb GOOS "darwin"
  then mididarwin_NewMIDIClient coremidi_NewClient heap options
  else match dummy_NewMIDIClient "Using dummy MIDI client for non-macOS system" options with
       | Returned d => Returned (inl (DarwinDummy d))
       | NilDereference => NilDereference
       end.

(** The same for [midiwindows.NewMIDIClient]; [windows_NewMIDIClient] is the
    constructor of the Windows build. *)
Definition midiwindows_pkg {W} (GOOS : string)
    (windows_NewMIDIClient : ClientOptions -> Outcome (ClientMIDI W + midi_error))
    (options : ClientOptions) : Outcome (ClientMIDI W + midi_error) :=
  if String.eqb GOOS "windows"
  then windows_NewMIDIClient options
  else match dummy_NewMIDIClient "Using dummy MIDI client for non-Windows system" options with
       | Returned d => Returned (inl (WindowsDummy d))
       | NilDereference => NilDereference
       end.

(** [clientInitializers]: the map from OS names to constructors. *)
Definition clientInitializers {W} (GOOS : string)
    (coremidi_NewClient : string -> option error) (heap : list Chan)
    (windows_NewMIDIClient : ClientOptions -> Outcome (ClientMIDI W + midi_error))
    : list (string * (ClientOptions -> Outcome (ClientMIDI W + midi_error))) :=
  [("darwin", mididarwin_pkg GOOS coremidi_NewClient heap);
   ("windows", midiwindows_pkg GOOS windows_NewMIDIClient)].

(** Lookup in a map with string keys. *)
Fixpoint map_lookup {V} (key : string) (m : list (string * V)) : option V :=
  match m with
  | [] => None
  | (k, v) :: rest => if String.eqb key k then Some v else map_lookup key rest
  end.

(** [NewClient]: the initializer for [runtime.GOOS], or [ErrUnsupportedOS]. *)
Definition NewClient {W} (GOOS : string)
    (coremidi_NewClient : string -> option error) (heap : list Chan)
    (windows_NewMIDIClient : ClientOptions -> Outcome (ClientMIDI W + midi_error))
    (opts : ClientOptions) : Outcome (ClientMIDI W + midi_error) :=
  match map_lookup GOOS
          (clientInitializers GOOS coremidi_NewClient heap windows_NewMIDIClient) with
  | Some initializer => initializer opts
  | None => Returned (inr (UnsupportedOS GOOS))
  end.

(** [midi.NewMIDIClient(opts...)]. *)
Definition midi_NewMIDIClient {W} (GOOS : string) (NewZapLogger : Logger)
    (SetLevel : Logger -> LogLevel -> Call unit)
    (coremidi_NewClient : string -> option error) (heap : list Chan)
    (windows_NewMIDIClient : ClientOptions -> Outcome (ClientMIDI W + midi_error))
    (opts : list Option) : Call (ClientMIDI W + midi_error) :=
  match applyDefaultOptions NewZapLogger SetLevel opts with
  | Returns (options, Some err, _) => Returns (inr (ClientError err))
  | Returns (options, None, _) =>
      Call_of_Outcome
        (NewClient GOOS coremidi_NewClient heap windows_NewMIDIClient options)
  | PanicsOnNil => PanicsOnNil
  | NoReturn => NoReturn
  end.

(** The calls on a dummy client. *)
Inductive DummyOp :=
| DummyListDevices
| DummySelectDevice (deviceID : Z)
| DummyStartCapture (eventChannel : option ChanRef)
| DummyStop.

(** One call on a dummy client: the error it returns, if it returns one,
    and the client after it. *)
Definition dummy_perform (o : DummyOp) (d : DummyMIDIClient)
    : option midi_error * DummyMIDIClient :=
  match o with
  | DummyListDevices => (snd (fst (dummy_ListDevices d)), snd (dummy_ListDevices d))
  | DummySelectDevice deviceID => dummy_SelectDevice deviceID d
  | DummyStartCapture eventChannel => (None, dummy_StartCapture eventChannel d)
  | DummyStop => dummy_Stop d
  end.

(** Calls on a dummy client one after the other. *)
Fixpoint dummy_run (ops : list DummyOp) (d : DummyMIDIClient) : DummyMIDIClient :=
  match ops with
  | [] => d
  | o :: rest => dummy_run rest (snd (dummy_perform o d))
  end.

(** * internal/midi/midiwindows: the client of the Windows build *)

(** [fmt.Sprintf] with the verbs the client uses: [%d] of an integer and
    [%X] of an unsigned one, in upper case and without leading zeros. *)
Definition Sprintf_d (n : Z) : string := NilZero.string_of_int (Z.to_int n).

Definition hex_digit (n : Z) : ascii :=
  nth (Z.to_nat n) (list_ascii_of_string "0123456789ABCDEF") "0"%char.

Fixpoint hex_digits (fuel : nat) (n : Z) (acc : string) : string :=
  match fuel with
  | O => acc
  | S fuel =>
      let acc := String (hex_digit (Z.land n 15)) acc in
      if (Z.shiftr n 4 =? 0)%Z then acc else hex_digits fuel (Z.shiftr n 4) acc
  end.

(** Sixteen digits are enough for a [uintptr]. *)
Definition Sprintf_X (n : Z) : string := hex_digits 16 n "".

(** [byte(x)]: the low eight bits. *)
Definition byte_of_Z (x : Z) : byte :=
  match Byte.of_N (Z.to_N (Z.land x 255)) with
  | Some b => b
  | None => x00
  end.

Definition Z_of_byte (b : byte) : Z := Z.of_N (Byte.to_N b).

Module Windows.

(** The message types of the callback. *)
Definition MIM_OPEN : Z := 0x3C1.
Definition MIM_CLOSE : Z := 0x3C2.
Definition MIM_DATA : Z := 0x3C3.
Definition MIM_ERROR : Z := 0x3C5.
Definition MIM_LONGERROR : Z := 0x3C6.
Definition MIM_MOREDATA : Z := 0x3CC.

(** The fields of the struct that [StartCapture], [Stop] and the callback
    read or write.
    - [eventChannel]: the [atomic.Value]; [None] when nothing was stored,
      [Some None] when a nil channel was stored: the type assertion to a
      channel succeeds on it and yields nil.
    - [handle]: the device handle, zero when there is none.
    - [mu]: [true] while the mutex is held. *)
Record ClientMid := mkClientMid {
  eventChannel : option (option ChanRef);
  handle : Z;
  portConn : bool;
  mu : bool;
  midiEventFilter : option MIDIEventFilter
}.

(** The world: the client, what was logged, the channel heap. *)
Record World := mkWorld {
  client : ClientMid;
  logged : list LogEntry;
  chans : list Chan
}.

(** A call returns, blocks for ever, or panics. *)
Inductive Result (A : Type) :=
| Ok (a : A) (w : World)
| Blocked (w : World)
| Panicked (text : string) (w : World).
Arguments Ok {A} a w.
Arguments Blocked {A} w.
Arguments Panicked {A} text w.

(** The errors the client returns: [fmt.Errorf] of a text, the error of a
    call into [winmm.dll], and [fmt.Errorf("prefix: %w", err)]. *)
Inductive error :=
| Errorf (text : string)
| Errno (text : string)
| Errorf_w (prefix : string) (cause : error).

(** What one call into [winmm.dll] answers: [r1] and the text of [err]. *)
Record Answer := mkAnswer { r1 : Z; err : string }.

Definition log (l : Level) (text : string) (w : World) : World :=
  mkWorld (client w) (logged w ++ [mkLog l text []]) (chans w).

Definition Store (v : option ChanRef) (w : World) : World :=
  mkWorld (mkClientMid (Some v) (handle (client w)) (portConn (client w))
                       (mu (client w)) (midiEventFilter (client w)))
          (logged w) (chans w).

Definition closed_device (w : World) : World :=
  mkWorld (mkClientMid (eventChannel (client w)) 0 false
                       (mu (client w)) (midiEventFilter (client w)))
          (logged w) (chans w).

(** [StartCapture].  The mutex is taken at the start and released by the
    deferred [Unlock] at every return; nothing in between waits. *)
Definition StartCapture (eventChannel' : option ChanRef) (midiInStart : Answer)
    (w : World) : Result unit :=
  if mu (client w) then Blocked w
  else if negb (portConn (client w)) then
    Ok tt (log ErrorLevel "Cannot start capture: No MIDI device selected" w)
  else
    match eventChannel (client w) with
    | Some _ => Ok tt (log WarnLevel "Capture already started" w)
    | None =>
        let w := Store eventChannel' w in
        if (handle (client w) =? 0)%Z then
          Ok tt (log ErrorLevel "Invalid MIDI device handle" w)
        else if negb (r1 midiInStart =? 0)%Z then
          Ok tt (log ErrorLevel ("Failed to start MIDI capture: " ++ err midiInStart) w)
        else Ok tt (log InfoLevel "MIDI capture started" w)
    end.

(** The event that the callback makes of [dwParam1]. *)
Definition decode (dwParam1 now : Z) : MIDI :=
  let status := byte_of_Z (Z.land dwParam1 0xFF) in
  let data1 := byte_of_Z (Z.land (Z.shiftr dwParam1 8) 0xFF) in
  let data2 := byte_of_Z (Z.land (Z.shiftr dwParam1 16) 0xFF) in
  let command := byte_of_Z (Z.land (Z_of_byte status) 0xF0) in
  mkMIDI (uint64 now) command data1 data2.

(** [channel := status & 0x0F]. *)
Definition channel_of (dwParam1 : Z) : byte :=
  byte_of_Z (Z.land (Z_of_byte (byte_of_Z (Z.land dwParam1 0xFF))) 0x0F).

(** The select with its default case, on the channel stored. *)
Definition send_or_discard (ch : ChanRef) (midiEvent : MIDI) (w : World) : Result Z :=
  match chans w !! ch with
  | Some c =>
      match trySend midiEvent c with
      | Sent c' => Ok 0 (mkWorld (client w) (logged w) (<[ch := c']> (chans w)))
      | NotReady => Ok 0 (log WarnLevel "MIDI event channel is full; event discarded" w)
      | SendOnClosed => Panicked "send on closed channel" w
      end
  | None => Ok 0 (log WarnLevel "MIDI event channel is full; event discarded" w)
  end.

(** [midiInCallback], with [dwInstance] pointing to the client of the
    world; [now] is the clock reading. *)
Definition midiInCallback (wMsg dwParam1 dwParam2 now : Z) (w : World) : Result Z :=
  if (wMsg =? MIM_OPEN)%Z then Ok 0 (log InfoLevel "MIDI device opened" w)
  else if (wMsg =? MIM_CLOSE)%Z then Ok 0 (log InfoLevel "MIDI device closed" w)
  else if (wMsg =? MIM_DATA)%Z then
    if (dwParam2 =? 0)%Z then Ok 0 w
    else
      let midiEvent := decode dwParam1 now in
      let command := Command midiEvent in
      let channel := channel_of dwParam1 in
      if filtered_out (midiEventFilter (client w)) (Command midiEvent) then
        Ok 0 (log DebugLevel
                ("MIDI command 0x" ++ Sprintf_X (Z_of_byte command) ++ " filtered out") w)
      else
        let w :=
          if (Byte.eqb command NoteOn && (Z_of_byte (Velocity midiEvent) =? 0)%Z)
             || Byte.eqb command NoteOff
          then log DebugLevel
                 ("Note Off: Channel " ++ Sprintf_d (Z_of_byte channel + 1)
                  ++ ", Note " ++ Sprintf_d (Z_of_byte (Note midiEvent))) w
          else if Byte.eqb command NoteOn
          then log DebugLevel
                 ("Note On: Channel " ++ Sprintf_d (Z_of_byte channel + 1)
                  ++ ", Note " ++ Sprintf_d (Z_of_byte (Note midiEvent))
                  ++ ", Velocity " ++ Sprintf_d (Z_of_byte (Velocity midiEvent))) w
          else w in
        match eventChannel (client w) with
        | Some (Some ch) => send_or_discard ch midiEvent w
        | _ => Ok 0 w
        end
  else if (wMsg =? MIM_ERROR)%Z || (wMsg =? MIM_LONGERROR)%Z then
    Ok 0 (log ErrorLevel ("MIDI error: msg=0x" ++ Sprintf_X wMsg) w)
  else if (wMsg =? MIM_MOREDATA)%Z then
    Ok 0 (log DebugLevel "Received MIM_MOREDATA message; ignored" w)
  else Ok 0 (log WarnLevel ("Unknown MIDI message: 0x" ++ Sprintf_X wMsg) w).

(** [stopCapture]: after the device was stopped and closed it stores nil in
    the [atomic.Value], which panics. *)
Definition stopCapture (midiInStop midiInClose : Answer) (w : World)
    : Result (option error) :=
  if (handle (client w) =? 0)%Z then Ok (Some (Errorf "invalid MIDI device handle")) w
  else if negb (r1 midiInStop =? 0)%Z then
    Ok (Some (Errno (err midiInStop)))
       (log ErrorLevel ("Failed to stop MIDI capture: " ++ err midiInStop) w)
  else if negb (r1 midiInClose =? 0)%Z then
    Ok (Some (Errno (err midiInClose)))
       (log ErrorLevel ("Failed to close MIDI device: " ++ err midiInClose) w)
  else Panicked "sync/atomic: store of nil value into Value" (closed_device w).

(** [Stop]; the deferred [Unlock] runs when [stopCapture] panics, too. *)
Definition Stop (midiInStop midiInClose : Answer) (w : World) : Result (option error) :=
  if mu (client w) then Blocked w
  else if negb (portConn (client w)) then
    Ok None (log WarnLevel "No MIDI device is connected" w)
  else
    match stopCapture midiInStop midiInClose w with
    | Ok (Some e) w' => Ok (Some (Errorf_w "failed to stop MIDI capture" e)) w'
    | Ok None w' => Ok None (log InfoLevel "MIDI capture stopped and device closed" w')
    | Blocked w' => Blocked w'
    | Panicked text w' => Panicked text w'
    end.

(** The client that [NewMIDIClient] returns. *)
Definition fresh (filter : option MIDIEventFilter) (heap : list Chan) : World :=
  mkWorld (mkClientMid None 0 false false filter)
          [mkLog InfoLevel "MIDI client created for Windows" []] heap.

End Windows.

(** [midiwindows.NewMIDIClient] of the windows build: [options.Logger.Info]
    dereferences the logger. *)
Definition midiwindows_NewMIDIClient (heap : list Chan) (options : ClientOptions)
    : Outcome (ClientMIDI Windows.World + midi_error) :=
  match opt_Logger options with
  | None => NilDereference
  | Some _ => Returned (inl (WindowsClient (Windows.fresh (opt_MIDIEventFilter options) heap)))
  end.

(** * Properties *)

(** ** Basic facts *)

(** [fresh] is what the constructor returns when the binding makes its client. *)
Lemma NewMIDIClient_fresh filter heap :
  NewMIDIClient filter None heap = inl (fresh filter heap).
Proof. reflexivity. Qed.

(** A new client is idle. *)
Lemma fresh_idle filter heap : idle (fresh filter heap).
Proof. split; reflexivity. Qed.

(** A world is its four components. *)
Lemma world_eta (w : World) :
  mkWorld (client w) (logged w) (chans w) (disconnected w) = w.
Proof. destruct w; reflexivity. Qed.

(** Taking the mutex and releasing it leaves an idle world as it was. *)
Lemma unlock_lock (w : World) :
  mu (client w) = false -> set_mu false (set_mu true w) = w.
Proof.
  destruct w as [m l c d]; destruct m; simpl.
  intros ->. reflexivity.
Qed.

(** Counting a callback in and out leaves the counter as it was. *)
Lemma done_add (w : World) :
  set_wg (pred (wg (client (set_wg (S (wg (client w))) w))))
         (set_wg (S (wg (client w))) w) = w.
Proof. destruct w as [m l c d]; destruct m; reflexivity. Qed.

(** A body under the mutex, started with the mutex free. *)
Lemma locked_free {A} (body : Go A) (w : World) :
  mu (client w) = false ->
  locked body w = deferring (set_mu false) body (set_mu true w).
Proof.
  intros H. unfold locked, bind, mu_Lock. rewrite H. reflexivity.
Qed.

(** A body under the mutex, started with the mutex held. *)
Lemma locked_held {A} (body : Go A) (w : World) :
  mu (client w) = true -> locked body w = Blocked w.
Proof.
  intros H. unfold locked, bind, mu_Lock. rewrite H. reflexivity.
Qed.

(** [isCommandAllowed] is membership in the list. *)
Lemma isCommandAllowed_In (command : byte) (allowedCommands : list MIDICommand) :
  isCommandAllowed command allowedCommands = true <-> In command allowedCommands.
Proof.
  induction allowedCommands as [|a rest IH]; simpl.
  - split; [discriminate | tauto].
  - destruct (Byte.eqb command a) eqn:E.
    + apply Byte.byte_dec_bl in E. subst. tauto.
    + rewrite IH. split; [tauto|].
      intros [Heq|H]; [|exact H].
      apply Byte.eqb_false in E. congruence.
Qed.

(** ** The callback, case by case *)

(** The callback computes [callback]. *)
Lemma handleMIDIMessage_callback (Data : list byte) (now : Z) (w : World) :
  handleMIDIMessage Data now w = callback Data now w.
Proof.
  destruct w as [m l cs d]; destruct m as [ec ip pc f mu0 cp n so].
  unfold handleMIDIMessage, callback, counted, deferring, bind, modify, read.
  simpl. destruct ec as [ch|]; [|reflexivity].
  destruct Data as [|d0 [|d1 [|d2 rest]]]; try reflexivity.
  simpl. unfold bind, index, read, ret. simpl.
  destruct (filtered_out f d0); [reflexivity|].
  unfold send_or_drop. simpl.
  destruct (cs !! ch) as [c|]; [|reflexivity].
  destruct (trySend _ c); reflexivity.
Qed.

(** A send on a channel of the heap has one of three ends. *)
Lemma send_or_drop_cases (ch : ChanRef) (event : MIDI) (w : World) :
  (exists c c', chans w !! ch = Some c /\ trySend event c = Sent c' /\
     send_or_drop ch event w = Ok tt (set_chans (<[ch := c']> (chans w)) w)) \/
  send_or_drop ch event w =
    Ok tt (logging [mkLog WarnLevel "Event buffer full; dropping MIDI event" []] w) \/
  send_or_drop ch event w = Panicked "send on closed channel" w.
Proof.
  unfold send_or_drop.
  destruct (chans w !! ch) as [c|] eqn:L; [|right; left; reflexivity].
  destruct (trySend event c) as [c'| |] eqn:T.
  - left. exists c, c'. auto.
  - right; left; reflexivity.
  - right; right; reflexivity.
Qed.

(** An open channel with a free slot and nobody receiving takes the event
    into its buffer. *)
Lemma trySend_room (e : MIDI) (c : Chan) :
  closed c = false -> waiting c = 0%nat -> (length (queue c) < cap c)%nat ->
  trySend e c = Sent (mkChan (cap c) (queue c ++ [e]) 0 (handed c) false).
Proof.
  intros Hc Hw Hl. unfold trySend. rewrite Hc, Hw. simpl.
  destruct (Nat.ltb_spec (length (queue c)) (cap c)); [reflexivity | lia].
Qed.

(** An open channel whose buffer is full, with nobody receiving, is not
    ready. *)
Lemma trySend_full (e : MIDI) (c : Chan) :
  closed c = false -> waiting c = 0%nat -> (cap c <= length (queue c))%nat ->
  trySend e c = NotReady.
Proof.
  intros Hc Hw Hl. unfold trySend. rewrite Hc, Hw. simpl.
  destruct (Nat.ltb_spec (length (queue c)) (cap c)); [lia | reflexivity].
Qed.

(** ** StartCapture with a nil channel *)

(** The nil check comes first under the mutex and ends the call. *)
Lemma StartCapture_None (w : World) :
  mu (client w) = false ->
  StartCapture None w =
    Ok tt (logging [mkLog ErrorLevel "StartCapture called with nil eventChannel" []] w).
Proof.
  intros H. unfold StartCapture. rewrite (locked_free _ _ H).
  unfold deferring, log, modify, logging.
  destruct w as [m l cs d]; destruct m; simpl in *; subst. reflexivity.
Qed.

(** C10. With the mutex free, [StartCapture(nil)] returns, and the world it
    leaves is the one it found with one error entry added to the log: the
    client (stored channel, capturing flag, connection, [sync.Once]), the
    channels and the record of disconnections are as before; [Stop] was not
    called. *)
Theorem StartCapture_nil (w : World) :
  mu (client w) = false ->
  exists w',
    StartCapture None w = Ok tt w'
    /\ client w' = client w
    /\ chans w' = chans w
    /\ disconnected w' = disconnected w
    /\ logged w' =
         (logged w ++ [mkLog ErrorLevel "StartCapture called with nil eventChannel" []])%list.
Proof.
  intros H. eexists. split; [apply StartCapture_None; exact H|].
  repeat split; reflexivity.
Qed.

(** An instance: a capturing client with a connection is handed nil. *)
Lemma StartCapture_nil_witness :
  let w := mkWorld (mkClientMid (Some 0%nat) 1%nat (Some 7%nat) None false true 0%nat false)
                   [] [make_chan 1] [] in
  exists w',
    StartCapture None w = Ok tt w'
    /\ client w' = client w
    /\ chans w' = chans w
    /\ disconnected w' = disconnected w
    /\ logged w' =
         (logged w ++ [mkLog ErrorLevel "StartCapture called with nil eventChannel" []])%list.
Proof. intros w. apply (StartCapture_nil w). reflexivity. Defined.

(** ** SelectDevice with an index out of range *)

(** C7. When the sources were enumerated and [deviceID] is negative or not
    below their number, [SelectDevice] returns [ErrInvalidMIDIDevice] and
    leaves the world as it found it but for the error entry in the log: the
    client is unchanged, so no connection was made, and none was
    disconnected. *)
Theorem SelectDevice_out_of_range (w : World) (native : Native)
    (sources : list Source) (deviceID : Z) :
  mu (client w) = false ->
  AllSources native = (sources, None) ->
  deviceID < 0 \/ deviceID >= Z.of_nat (length sources) ->
  exists w',
    SelectDevice deviceID native w = Ok (Some ErrInvalidMIDIDevice) w'
    /\ client w' = client w
    /\ chans w' = chans w
    /\ disconnected w' = disconnected w
    /\ logged w' = (logged w ++ [mkLog ErrorLevel "invalid MIDI device" []])%list.
Proof.
  intros Hmu Hsrc Hid. unfold SelectDevice. rewrite (locked_free _ _ Hmu), Hsrc.
  assert (((deviceID <? 0) || (deviceID >=? Z.of_nat (length sources)))%Z = true) as ->.
  { apply orb_true_iff. rewrite Z.ltb_lt, Z.geb_le. lia. }
  unfold deferring, bind, log, modify, ret.
  destruct w as [m l cs d]; destruct m; simpl in *; subst.
  eexists. split; [reflexivity|]. repeat split; reflexivity.
Qed.

(** An instance: index 1 with one source enumerated. *)
Lemma SelectDevice_out_of_range_witness :
  let w := fresh None [] in
  exists w',
    SelectDevice 1 oneSource w = Ok (Some ErrInvalidMIDIDevice) w'
    /\ client w' = client w
    /\ chans w' = chans w
    /\ disconnected w' = disconnected w
    /\ logged w' = (logged w ++ [mkLog ErrorLevel "invalid MIDI device" []])%list.
Proof.
  intros w.
  apply (SelectDevice_out_of_range w oneSource [mkSource "Keys" "Keys Entity" "Acme"] 1).
  - reflexivity.
  - reflexivity.
  - right. simpl. lia.
Defined.

(** ** The filter *)

(** C4. A command passes the guard of the callback exactly when there is no
    filter or the command the guard is given is one of the filter's
    commands.  So a filter with no commands lets nothing pass. *)
Theorem filter_passes_iff (f : option MIDIEventFilter) (command : byte) :
  filtered_out f command = false <->
  f = None \/ exists filter, f = Some filter /\ In command (Commands filter).
Proof.
  destruct f as [filter|]; simpl.
  - rewrite negb_false_iff, isCommandAllowed_In. split.
    + intros H. right. exists filter. auto.
    + intros [H|[x [H1 H2]]]; [discriminate|]. congruence.
  - split; auto.
Qed.

(** C4 (against the specification). With a filter whose set is empty the
    guard lets no command pass, where the specification lets every command
    pass: a Note On that arrives at a capturing client with such a filter is
    not put on the channel. *)
Lemma empty_filter_lets_nothing_pass :
  filtered_out (Some (mkFilter [])) x90 = true
  /\ Allows_spec (Some (mkFilter [])) x90 = true
  /\ exists w',
       (StartCapture (Some 0%nat) ;; handleMIDIMessage [x90; x3c; x64] 5)
         (fresh (Some (mkFilter [])) [make_chan 1]) = Ok tt w'
       /\ queue <$> (chans w' !! 0%nat) = Some [].
Proof.
  split; [reflexivity|]. split; [reflexivity|].
  eexists. split; [vm_compute; reflexivity|]. reflexivity.
Qed.

(** ** What the callback decodes *)

(** A payload of at least three bytes, passing the filter, on a channel
    that is ready. *)
Lemma callback_send (w : World) (ch : ChanRef) (c c' : Chan)
    (d0 d1 d2 : byte) (rest : list byte) (now : Z) :
  eventChannel (client w) = Some ch ->
  chans w !! ch = Some c ->
  filtered_out (midiEventFilter (client w)) d0 = false ->
  trySend (mkMIDI (uint64 now) d0 d1 d2) c = Sent c' ->
  handleMIDIMessage (d0 :: d1 :: d2 :: rest) now w =
    Ok tt (set_chans (<[ch := c']> (chans w)) w).
Proof.
  intros Hch Hc Hf Hs.
  rewrite handleMIDIMessage_callback. unfold callback.
  rewrite Hch, Hf. unfold send_or_drop. rewrite Hc, Hs. reflexivity.
Qed.

(** What the callback sends.  For a payload of at least three bytes, with a
    channel stored, the event not filtered out and the channel ready, the
    callback returns having sent exactly the event whose command is the
    first byte as it came (channel nibble included), whose note and
    velocity are the second and third byte, and whose timestamp is the
    clock reading as a [uint64], which is the reading itself when that is
    not negative. *)
Theorem callback_sends_raw_bytes (w : World) (ch : ChanRef) (c c' : Chan)
    (d0 d1 d2 : byte) (rest : list byte) (now : Z) :
  eventChannel (client w) = Some ch ->
  chans w !! ch = Some c ->
  filtered_out (midiEventFilter (client w)) d0 = false ->
  trySend (mkMIDI (uint64 now) d0 d1 d2) c = Sent c' ->
  handleMIDIMessage (d0 :: d1 :: d2 :: rest) now w =
    Ok tt (set_chans (<[ch := c']> (chans w)) w)
  /\ (0 <= now < 2 ^ 64 -> uint64 now = now).
Proof.
  intros Hch Hc Hf Hs. split.
  - apply callback_send with (c := c); assumption.
  - intros Hn. unfold uint64. apply Z.mod_small. exact Hn.
Qed.

(** An instance: Note On, middle C, velocity 100, on an empty channel of
    capacity 1 with the filter of the examples. *)
Lemma callback_sends_raw_bytes_witness :
  let w := mkWorld (mkClientMid (Some 0%nat) 1%nat (Some 7%nat)
                      (Some (mkFilter [NoteOn; NoteOff])) false true 0%nat false)
                   [] [make_chan 1] [] in
  handleMIDIMessage [x90; x3c; x64; x00] 1700000000000000000 w =
    Ok tt (set_chans [mkChan 1 [mkMIDI 1700000000000000000 x90 x3c x64] 0 [] false] w).
Proof.
  intros w.
  apply (callback_sends_raw_bytes w 0%nat (make_chan 1)
           (mkChan 1 [mkMIDI 1700000000000000000 x90 x3c x64] 0 [] false)
           x90 x3c x64 [x00] 1700000000000000000); reflexivity.
Defined.

(** C3. A Note On of channel 2, bytes [0x91 0x3C 0x64], arrives at a
    capturing client without filter: the event put on the caller's channel
    has command [0x91], where the status nibble, [0x91 & 0xF0], is [0x90]. *)
Lemma command_keeps_channel_nibble :
  exists w' event,
    (StartCapture (Some 0%nat) ;; handleMIDIMessage [x91; x3c; x64] 5)
      (fresh None [make_chan 1]) = Ok tt w'
    /\ queue <$> (chans w' !! 0%nat) = Some [event]
    /\ status_nibble x91 = x90
    /\ Command event <> status_nibble x91.
Proof.
  eexists _, _. split; [vm_compute; reflexivity|].
  split; [reflexivity|].
  split; [reflexivity|].
  vm_compute. discriminate.
Qed.

(** The guard is given the command of the event, here the whole status
    byte.  With the filter of the example programs, Note On and Note Off,
    a Note On of channel 2 is therefore dropped, though its status nibble is
    in the filter; only the messages of channel 1 pass. *)
Lemma channel_two_filtered_out :
  filtered_out (Some (mkFilter [NoteOn; NoteOff])) x91 = true
  /\ filtered_out (Some (mkFilter [NoteOn; NoteOff])) (status_nibble x91) = false
  /\ exists w',
       (StartCapture (Some 0%nat) ;; handleMIDIMessage [x91; x3c; x64] 5)
         (fresh (Some (mkFilter [NoteOn; NoteOff])) [make_chan 1]) = Ok tt w'
       /\ queue <$> (chans w' !! 0%nat) = Some [].
Proof.
  split; [reflexivity|]. split; [reflexivity|].
  eexists. split; [vm_compute; reflexivity|]. reflexivity.
Qed.

(** ** Short payloads *)

(** C8 (as the code has it). For a payload of fewer than three bytes the
    callback returns and changes nothing but the log: no channel is written.
    The entry logged is the incomplete-packet warning when a channel is
    stored; when none is stored the callback has already left with the
    warning about the missing channel and the length is never looked at. *)
Theorem callback_short_payload (w : World) (Data : list byte) (now : Z) :
  (length Data < 3)%nat ->
  handleMIDIMessage Data now w =
    Ok tt (logging [mkLog WarnLevel
                      match eventChannel (client w) with
                      | Some _ => "incomplete MIDI packet"
                      | None => "eventChannel not initialized or of invalid type"
                      end []] w).
Proof.
  intros Hlen. rewrite handleMIDIMessage_callback. unfold callback.
  destruct (eventChannel (client w)); [|reflexivity].
  destruct Data as [|d0 [|d1 [|d2 rest]]]; try reflexivity.
  simpl in Hlen. lia.
Qed.

(** An instance: two bytes arrive at a capturing client. *)
Lemma callback_short_payload_witness :
  let w := mkWorld (mkClientMid (Some 0%nat) 1%nat (Some 7%nat) None false true 0%nat false)
                   [] [make_chan 1] [] in
  handleMIDIMessage [x90; x3c] 5 w =
    Ok tt (logging [mkLog WarnLevel "incomplete MIDI packet" []] w).
Proof. intros w. apply (callback_short_payload w [x90; x3c] 5). simpl. lia. Defined.

(** C8 (against the specification). A device was selected and capture not yet
    started; a one-byte payload arrives.  The callback logs that no channel
    is initialised, and no incomplete-packet entry is logged. *)
Lemma short_payload_without_channel :
  exists w1 w2,
    SelectDevice 0 oneSource (fresh None [make_chan 1]) = Ok None w1
    /\ handleMIDIMessage [x90] 5 w1 = Ok tt w2
    /\ logged w2 = (logged w1 ++
         [mkLog WarnLevel "eventChannel not initialized or of invalid type" []])%list
    /\ ~ In (mkLog WarnLevel (Error_text ErrIncompleteMIDIPacket) []) (logged w2).
Proof.
  eexists _, _. split; [vm_compute; reflexivity|].
  split; [vm_compute; reflexivity|].
  split; [reflexivity|].
  simpl. intros [H|[H|[H|[H|[]]]]]; discriminate H.
Qed.

(** ** A full sink *)

(** C9. The stored channel has capacity 1, is open and empty, and nobody is
    receiving on it.  Two payloads of at least three bytes that pass the
    filter arrive one after the other.  Both calls of the callback return;
    after the first the channel holds the first event; the second leaves
    the channel as it is and logs that the event was dropped. *)
Theorem second_event_dropped (w : World) (ch : ChanRef) (c : Chan)
    (a0 a1 a2 : byte) (ra : list byte) (n1 : Z)
    (b0 b1 b2 : byte) (rb : list byte) (n2 : Z) :
  eventChannel (client w) = Some ch ->
  chans w !! ch = Some c ->
  cap c = 1%nat -> queue c = [] -> waiting c = 0%nat -> closed c = false ->
  filtered_out (midiEventFilter (client w)) a0 = false ->
  filtered_out (midiEventFilter (client w)) b0 = false ->
  let first := mkMIDI (uint64 n1) a0 a1 a2 in
  let w1 := set_chans (<[ch := mkChan 1 [first] 0 (handed c) false]> (chans w)) w in
  handleMIDIMessage (a0 :: a1 :: a2 :: ra) n1 w = Ok tt w1
  /\ handleMIDIMessage (b0 :: b1 :: b2 :: rb) n2 w1 =
       Ok tt (logging [mkLog WarnLevel "Event buffer full; dropping MIDI event" []] w1).
Proof.
  intros Hch Hc Hcap Hq Hw Hcl Ha Hb first w1. split.
  - apply callback_send with (c := c); auto.
    rewrite trySend_room by (auto; rewrite Hq, Hcap; simpl; lia).
    rewrite Hcap, Hq. reflexivity.
  - rewrite handleMIDIMessage_callback. unfold callback.
    assert (client w1 = client w) as -> by reflexivity.
    rewrite Hch, Hb. unfold send_or_drop.
    assert (chans w1 !! ch = Some (mkChan 1 [first] 0 (handed c) false)) as ->.
    { apply list_lookup_insert_eq. eapply lookup_lt_Some; eauto. }
    rewrite trySend_full by (simpl; auto). reflexivity.
Qed.

(** An instance: Note On then Note Off with the filter of the examples. *)
Lemma second_event_dropped_witness :
  let w := mkWorld (mkClientMid (Some 0%nat) 1%nat (Some 7%nat)
                      (Some (mkFilter [NoteOn; NoteOff])) false true 0%nat false)
                   [] [make_chan 1] [] in
  let w1 := set_chans [mkChan 1 [mkMIDI 5 x90 x3c x64] 0 [] false] w in
  handleMIDIMessage [x90; x3c; x64] 5 w = Ok tt w1
  /\ handleMIDIMessage [x80; x3c; x00] 6 w1 =
       Ok tt (logging [mkLog WarnLevel "Event buffer full; dropping MIDI event" []] w1).
Proof.
  intros w w1.
  apply (second_event_dropped w 0%nat (make_chan 1) x90 x3c x64 [] 5 x80 x3c x00 [] 6);
    reflexivity.
Defined.

(** ** StartCapture without a device *)

(** [StartCapture] with a channel, on a client that is not capturing. *)
Lemma StartCapture_Some (w : World) (ch : ChanRef) :
  mu (client w) = false ->
  capturing (client w) = false ->
  StartCapture (Some ch) w =
    Ok tt (set_capturing true
             (set_eventChannel (Some ch)
                (logging [mkLog InfoLevel "Starting MIDI event capture" []] w))).
Proof.
  intros Hmu Hcap. unfold StartCapture. rewrite (locked_free _ _ Hmu).
  unfold deferring, bind, read, log, modify, ret, logging.
  destruct w as [m l cs d]; destruct m; simpl in *; subst. reflexivity.
Qed.

(** [StartCapture] with a channel does not look at the connection.  On a
    client that is not capturing and has no device selected it returns
    having stored the channel and set the capturing flag, and the one entry
    it logs is the information that capture starts; the connection is still
    nil. *)
Theorem StartCapture_installs (w : World) (ch : ChanRef) :
  mu (client w) = false ->
  capturing (client w) = false ->
  portConn (client w) = None ->
  exists w',
    StartCapture (Some ch) w = Ok tt w'
    /\ eventChannel (client w') = Some ch
    /\ capturing (client w') = true
    /\ portConn (client w') = None
    /\ logged w' = (logged w ++ [mkLog InfoLevel "Starting MIDI event capture" []])%list
    /\ chans w' = chans w
    /\ disconnected w' = disconnected w.
Proof.
  intros Hmu Hcap Hpc. eexists. split; [apply StartCapture_Some; assumption|].
  simpl. repeat split; auto.
Qed.

(** An instance: the first call on a new client. *)
Lemma StartCapture_installs_witness :
  let w := fresh None [make_chan 1] in
  exists w',
    StartCapture (Some 0%nat) w = Ok tt w'
    /\ eventChannel (client w') = Some 0%nat
    /\ capturing (client w') = true
    /\ portConn (client w') = None
    /\ logged w' = (logged w ++ [mkLog InfoLevel "Starting MIDI event capture" []])%list
    /\ chans w' = chans w
    /\ disconnected w' = disconnected w.
Proof.
  intros w. apply (StartCapture_installs w 0%nat); reflexivity.
Defined.

(** C5. On a new client, no device selected, [StartCapture(sink)] stores the
    sink and sets the capturing flag, and what it logs is an information
    entry, not a report of a missing device. *)
Lemma StartCapture_without_device :
  exists w',
    StartCapture (Some 0%nat) (fresh None [make_chan 1]) = Ok tt w'
    /\ portConn (client (fresh None [make_chan 1])) = None
    /\ portConn (client w') = None
    /\ eventChannel (client w') = Some 0%nat
    /\ capturing (client w') = true
    /\ logged w' = (logged (fresh None [make_chan 1]) ++
                    [mkLog InfoLevel "Starting MIDI event capture" []])%list.
Proof. eexists. repeat split; vm_compute; reflexivity. Qed.

(** ** Stop, case by case *)

(** On an idle client [Stop] returns nil and leaves [after_Stop]. *)
Lemma Stop_idle (w : World) :
  idle w -> Stop w = Ok None (after_Stop w).
Proof.
  intros [Hmu Hwg]. unfold Stop, after_Stop, bind at 1, stopOnce_Do.
  destruct (stopOnce (client w)) eqn:Hso; [reflexivity|].
  unfold deferring at 1, bind at 1, log at 1, modify at 1.
  rewrite locked_free by exact Hmu.
  unfold deferring, bind, read, modify, make, Disconnect, log, wg_Wait, ret, logging.
  destruct w as [m l cs d]; destruct m as [ec ip pc f mu0 cp n so].
  simpl in *; subst.
  destruct cp; simpl; [|reflexivity].
  destruct pc; simpl; rewrite ?app_nil_r, <- ?app_assoc; reflexivity.
Qed.

(** [Stop] leaves an idle client idle. *)
Lemma after_Stop_idle (w : World) : idle w -> idle (after_Stop w).
Proof.
  intros [Hmu Hwg]. unfold after_Stop, idle.
  destruct (stopOnce (client w)); [auto|].
  destruct (capturing (client w)); simpl; auto.
Qed.

(** After [Stop] the [sync.Once] has run. *)
Lemma after_Stop_done (w : World) : stopOnce (client (after_Stop w)) = true.
Proof.
  unfold after_Stop. destruct (stopOnce (client w)) eqn:E; [exact E|].
  destruct (capturing (client w)); reflexivity.
Qed.

(** A second [Stop] changes nothing. *)
Lemma after_Stop_again (w : World) : after_Stop (after_Stop w) = after_Stop w.
Proof.
  unfold after_Stop at 1. rewrite after_Stop_done. reflexivity.
Qed.

(** Any positive number of calls leaves what the first call left. *)
Lemma Stop_times_idle (n : nat) (w : World) :
  idle w ->
  Stop_times (S n) w = Ok (repeat None (S n)) (after_Stop w).
Proof.
  revert w. induction n as [|n IH]; intros w Hw.
  - simpl. unfold bind. rewrite (Stop_idle _ Hw). reflexivity.
  - change (Stop_times (S (S n))) with
      (e <- Stop ;; es <- Stop_times (S n) ;; ret (e :: es)).
    unfold bind at 1. rewrite (Stop_idle _ Hw).
    unfold bind. rewrite (IH _ (after_Stop_idle _ Hw)), after_Stop_again.
    reflexivity.
Qed.

(** ** Stop is idempotent *)

(** On an idle client, any number of calls of [Stop] one after the other
    all return the nil error.  The world after them is the world after the
    first, which a further call leaves unchanged: the body ran at most once.
    Together the calls announced the body at most once in the log and
    called [Disconnect] at most once. *)
Theorem Stop_idempotent (w : World) (n : nat) :
  idle w ->
  exists w1,
    Stop w = Ok None w1
    /\ Stop_times (S n) w = Ok (repeat None (S n)) w1
    /\ Stop w1 = Ok None w1
    /\ stopOnce (client w1) = true
    /\ (exists entries, logged w1 = (logged w ++ entries)%list
          /\ (length (stopping_entries entries) <= 1)%nat)
    /\ (exists conns, disconnected w1 = (disconnected w ++ conns)%list
          /\ (length conns <= 1)%nat).
Proof.
  intros Hw. exists (after_Stop w).
  split; [apply Stop_idle; exact Hw|].
  split; [apply Stop_times_idle; exact Hw|].
  split.
  { rewrite (Stop_idle _ (after_Stop_idle _ Hw)), after_Stop_again. reflexivity. }
  split; [apply after_Stop_done|].
  unfold after_Stop.
  destruct (stopOnce (client w)).
  - split; exists []; rewrite app_nil_r; simpl; auto.
  - destruct (capturing (client w)); simpl.
    + split.
      * eexists. split; [reflexivity|]. simpl. lia.
      * eexists. split; [reflexivity|].
        destruct (portConn (client w)); simpl; lia.
    + split.
      * eexists. split; [reflexivity|]. simpl. lia.
      * exists []. rewrite app_nil_r. simpl. auto.
Qed.

(** An instance: three calls on a capturing client with a connection. *)
Lemma Stop_idempotent_witness :
  let w := mkWorld (mkClientMid (Some 0%nat) 1%nat (Some 7%nat) None false true 0%nat false)
                   [] [make_chan 1] [] in
  exists w1,
    Stop w = Ok None w1
    /\ Stop_times 3 w = Ok [None; None; None] w1
    /\ Stop w1 = Ok None w1
    /\ stopOnce (client w1) = true
    /\ (exists entries, logged w1 = (logged w ++ entries)%list
          /\ (length (stopping_entries entries) <= 1)%nat)
    /\ (exists conns, disconnected w1 = (disconnected w ++ conns)%list
          /\ (length conns <= 1)%nat).
Proof.
  intros w. apply (Stop_idempotent w 2). split; reflexivity.
Defined.

(** ** StartCapture on a capturing client *)

(** The call of [Stop] inside [StartCapture] is made with the mutex held.
    When the [sync.Once] has not run yet, the body of [Stop] asks for the
    mutex again and the call never returns. *)
Lemma StartCapture_while_capturing_blocks (w : World) (ch : ChanRef) :
  mu (client w) = false ->
  capturing (client w) = true ->
  stopOnce (client w) = false ->
  StartCapture (Some ch) w =
    Blocked (set_mu true
      (logging [mkLog WarnLevel
                  "Capture already started; attempting to stop existing capture" [];
                mkLog InfoLevel "Stopping MIDI capture" []] w)).
Proof.
  intros Hmu Hcap Hso. unfold StartCapture. rewrite (locked_free _ _ Hmu).
  unfold Stop, stopOnce_Do, locked, mu_Lock.
  unfold deferring, bind, read, log, modify, ret, logging.
  destruct w as [m l cs d]; destruct m; simpl in *; subst. simpl.
  rewrite <- app_assoc. reflexivity.
Qed.

(** When the [sync.Once] has run, the inner [Stop] does nothing and the new
    channel replaces the old one while capture goes on. *)
Lemma StartCapture_while_capturing_replaces (w : World) (ch : ChanRef) :
  mu (client w) = false ->
  capturing (client w) = true ->
  stopOnce (client w) = true ->
  StartCapture (Some ch) w =
    Ok tt (set_eventChannel (Some ch)
      (logging [mkLog WarnLevel
                  "Capture already started; attempting to stop existing capture" [];
                mkLog InfoLevel "Starting MIDI event capture" []] w)).
Proof.
  intros Hmu Hcap Hso. unfold StartCapture. rewrite (locked_free _ _ Hmu).
  unfold Stop, stopOnce_Do.
  unfold deferring, bind, read, log, modify, ret, logging.
  destruct w as [m l cs d]; destruct m; simpl in *; subst. simpl.
  rewrite <- app_assoc. reflexivity.
Qed.

(** C2. A device is selected on a new client and [StartCapture] is called
    twice with the same channel.  The second call, holding the mutex, logs
    its warning and calls [Stop]; that call of [Stop] announces itself, asks
    for the mutex and never returns, and so neither does [StartCapture].  A
    call of [Stop] made afterwards does not return either, and the
    connection stays as it was.  In the earlier variant the same calls end
    in a panic in the [Stop] that [StartCapture] makes, and so does a plain
    [Stop] after [StartCapture]: [Store(nil)] panics where nil was to be
    returned. *)
Lemma Stop_does_not_return :
  exists w1 w2 w3 w4 w5,
    (SelectDevice 0 oneSource ;; StartCapture (Some 0%nat))
      (fresh None [make_chan 1]) = Ok tt w1
    /\ Stop (set_mu true
               (logging [mkLog WarnLevel
                           "Capture already started; attempting to stop existing capture"
                           []] w1)) = Blocked w2
    /\ StartCapture (Some 0%nat) w1 = Blocked w2
    /\ Stop w2 = Blocked w3
    /\ portConn (client w3) = Some 7%nat
    /\ disconnected w3 = []
    /\ (SelectDevice 0 oneSource ;; Legacy.StartCapture (Some 0%nat) ;;
        Legacy.StartCapture (Some 0%nat)) (fresh None [make_chan 1]) =
         Panicked "sync/atomic: store of nil value into Value" w4
    /\ (SelectDevice 0 oneSource ;; Legacy.StartCapture (Some 0%nat) ;; Legacy.Stop)
         (fresh None [make_chan 1]) =
         Panicked "sync/atomic: store of nil value into Value" w5.
Proof.
  eexists _, _, _, _, _.
  split; [vm_compute; reflexivity|].
  split; [vm_compute; reflexivity|].
  split; [vm_compute; reflexivity|].
  split; [vm_compute; reflexivity|].
  split; [reflexivity|].
  split; [reflexivity|].
  split; vm_compute; reflexivity.
Qed.

(** ** What SelectDevice and the callback leave alone *)

(** [SelectDevice] touches the port, the connection and the log only. *)
Lemma SelectDevice_frame (w w' : World) (deviceID : Z) (native : Native)
    (e : option error) :
  mu (client w) = false ->
  SelectDevice deviceID native w = Ok e w' ->
  eventChannel (client w') = eventChannel (client w)
  /\ midiEventFilter (client w') = midiEventFilter (client w)
  /\ mu (client w') = false
  /\ capturing (client w') = capturing (client w)
  /\ wg (client w') = wg (client w)
  /\ stopOnce (client w') = stopOnce (client w)
  /\ chans w' = chans w.
Proof.
  intros Hmu. unfold SelectDevice. rewrite (locked_free _ _ Hmu).
  destruct w as [m l cs d]; destruct m as [ec ip pc f mu0 cp n so].
  destruct native as [[sources [e0|]] [port [e1|]] conn];
    unfold deferring, bind, read, log, modify, ret, index, Disconnect; simpl.
  1,2: intros H; inversion H; subst; simpl; repeat split; reflexivity.
  all: destruct ((deviceID <? 0) || (deviceID >=? Z.of_nat (length sources)))%Z;
    [intros H; inversion H; subst; simpl; repeat split; reflexivity|].
  all: destruct pc; simpl;
    destruct (sources !! Z.to_nat deviceID) as [source|]; simpl;
    try discriminate.
  1,2: intros H; inversion H; subst; simpl; repeat split; reflexivity.
  all: destruct (conn port source) as [pc' [e2|]]; simpl;
    intros H; inversion H; subst; simpl; repeat split; reflexivity.
Qed.

(** The callback leaves the client and the record of disconnections as they
    were, however it ends. *)
Lemma callback_frame (Data : list byte) (now : Z) (w : World) :
  client (world_of (handleMIDIMessage Data now w)) = client w
  /\ disconnected (world_of (handleMIDIMessage Data now w)) = disconnected w.
Proof.
  rewrite handleMIDIMessage_callback. unfold callback.
  destruct (eventChannel (client w)) as [ch|]; [|split; reflexivity].
  destruct Data as [|d0 [|d1 [|d2 rest]]]; try (split; reflexivity).
  destruct (filtered_out _ d0); [split; reflexivity|].
  destruct (send_or_drop_cases ch (mkMIDI (uint64 now) d0 d1 d2) w)
    as [(c & c' & _ & _ & ->)|[->| ->]]; split; reflexivity.
Qed.

(** ** Worlds a client can be in *)

(** In a quiet world the callback returns and can only log. *)
Lemma quiet_callback (Data : list byte) (now : Z) (w : World) :
  quiet w -> exists entries, handleMIDIMessage Data now w = Ok tt (logging entries w).
Proof.
  intros Hq. rewrite handleMIDIMessage_callback. unfold callback.
  unfold quiet in Hq.
  destruct (eventChannel (client w)) as [ch|]; [|eexists; reflexivity].
  destruct Data as [|d0 [|d1 [|d2 rest]]]; try (eexists; reflexivity).
  destruct (filtered_out _ d0).
  - exists []. unfold logging. rewrite app_nil_r, world_eta. reflexivity.
  - unfold send_or_drop. rewrite Hq. simpl. eexists; reflexivity.
Qed.

(** The same for any number of callbacks. *)
Lemma quiet_callbacks (cbs : list (list byte * Z)) (w : World) :
  quiet w -> exists entries, callbacks cbs w = Ok tt (logging entries w).
Proof.
  revert w. induction cbs as [|[Data now] rest IH]; intros w Hq.
  - exists []. unfold logging. rewrite app_nil_r, world_eta. reflexivity.
  - destruct (quiet_callback Data now w Hq) as [l1 H1].
    destruct (IH (logging l1 w) Hq) as [l2 H2].
    exists (l1 ++ l2)%list. simpl. unfold bind. rewrite H1, H2.
    unfold logging. simpl. rewrite app_assoc. reflexivity.
Qed.

(** Unless capture was started after an earlier [Stop], the client is not
    capturing and quiet after [Stop]. *)
Lemma after_Stop_quiet (w : World) :
  (capturing (client w) = false -> quiet w) ->
  stopOnce (client w) = false \/ capturing (client w) = false ->
  capturing (client (after_Stop w)) = false /\ quiet (after_Stop w).
Proof.
  intros Hs Hc. unfold after_Stop.
  destruct (stopOnce (client w)) eqn:Hso.
  - destruct Hc as [Hc|Hc]; [discriminate|]. auto.
  - destruct (capturing (client w)) eqn:Hcap.
    + split; [reflexivity|]. unfold quiet. simpl.
      apply list_lookup_middle. reflexivity.
    + split; [exact Hcap|]. apply Hs. reflexivity.
Qed.

(** Every world a client can be in is settled. *)
Lemma reachable_settled (w : World) : reachable w -> settled w.
Proof.
  induction 1 as [filter heap | w w' o Hr [[Hmu Hwg] Hq] Hp].
  - split; [apply fresh_idle | intros _; exact I].
  - destruct o as [deviceID native | [ch|] | | Data now]; simpl in Hp.
    + unfold bind in Hp.
      destruct (SelectDevice deviceID native w) as [e w1| |] eqn:E; try discriminate.
      inversion Hp; subst.
      destruct (SelectDevice_frame _ _ _ _ _ Hmu E)
        as (Hec & _ & Hmu' & Hcap & Hwg' & _ & Hch).
      split; [split; congruence|].
      unfold quiet in *. rewrite Hec, Hch, Hcap. exact Hq.
    + destruct (capturing (client w)) eqn:Hcap.
      * destruct (stopOnce (client w)) eqn:Hso.
        -- rewrite StartCapture_while_capturing_replaces in Hp by assumption.
           inversion Hp; subst.
           split; [split; assumption|]. simpl. congruence.
        -- rewrite StartCapture_while_capturing_blocks in Hp by assumption.
           discriminate.
      * rewrite StartCapture_Some in Hp by assumption.
        inversion Hp; subst.
        split; [split; assumption|]. simpl. discriminate.
    + rewrite StartCapture_None in Hp by assumption.
      inversion Hp; subst. split; [split; assumption|exact Hq].
    + unfold bind in Hp. rewrite Stop_idle in Hp by (split; assumption).
      inversion Hp; subst.
      split; [apply after_Stop_idle; split; assumption|].
      unfold after_Stop.
      destruct (stopOnce (client w)); [exact Hq|].
      destruct (capturing (client w)) eqn:Hcap.
      * intros _. unfold quiet. simpl. apply list_lookup_middle. reflexivity.
      * intros _. exact (Hq eq_refl).
    + pose proof (callback_frame Data now w) as [Hc _].
      rewrite handleMIDIMessage_callback in Hp, Hc. rewrite Hp in Hc. simpl in Hc.
      split; [split; rewrite Hc; assumption|].
      rewrite Hc. intros Hcap.
      destruct (quiet_callback Data now w (Hq Hcap)) as [l Hl].
      rewrite handleMIDIMessage_callback, Hp in Hl. inversion Hl; subst.
      apply (Hq Hcap).
Qed.

(** ** No delivery after Stop *)

(** Take a client in any world it can reach by calls that returned, on
    which capture was not started again after an earlier [Stop]: either
    [Stop] was never called, or the client is not capturing.  Then [Stop]
    returns, and however many callbacks run after it, all of them return
    and none writes to a channel: the channels that existed before the call
    of [Stop] are as they were.  (A later [StartCapture] stores a channel
    again and delivery resumes.) *)
Theorem no_delivery_after_Stop (w : World) (cbs : list (list byte * Z)) :
  reachable w ->
  stopOnce (client w) = false \/ capturing (client w) = false ->
  exists w1 w2 made,
    Stop w = Ok None w1
    /\ callbacks cbs w1 = Ok tt w2
    /\ chans w2 = chans w1
    /\ chans w1 = (chans w ++ made)%list
    /\ capturing (client w2) = false.
Proof.
  intros Hr Hc. destruct (reachable_settled w Hr) as [Hi Hq].
  destruct (after_Stop_quiet w Hq Hc) as [Hcap Hquiet].
  destruct (quiet_callbacks cbs (after_Stop w) Hquiet) as [entries He].
  exists (after_Stop w), (logging entries (after_Stop w)).
  exists (if stopOnce (client w) then []
          else if capturing (client w) then [make_chan 0] else []).
  split; [apply Stop_idle; exact Hi|].
  split; [exact He|].
  split; [reflexivity|].
  split; [|exact Hcap].
  unfold after_Stop.
  destruct (stopOnce (client w)); [rewrite app_nil_r; reflexivity|].
  destruct (capturing (client w)); simpl; [reflexivity|].
  rewrite app_nil_r. reflexivity.
Qed.

(** An instance: capture is started on a new client, stopped, and two
    payloads arrive. *)
Lemma no_delivery_after_Stop_witness :
  let w := set_capturing true
             (set_eventChannel (Some 0%nat)
                (logging [mkLog InfoLevel "Starting MIDI event capture" []]
                   (fresh None [make_chan 1]))) in
  exists w1 w2 made,
    Stop w = Ok None w1
    /\ callbacks [([x90; x3c; x64], 5); ([x80; x3c; x00], 6)] w1 = Ok tt w2
    /\ chans w2 = chans w1
    /\ chans w1 = (chans w ++ made)%list
    /\ capturing (client w2) = false.
Proof.
  intros w.
  apply (no_delivery_after_Stop w [([x90; x3c; x64], 5); ([x80; x3c; x00], 6)]).
  - apply (reach_op (fresh None [make_chan 1]) w (DoStartCapture (Some 0%nat))).
    + apply reach_new.
    + reflexivity.
  - left. reflexivity.
Defined.

(** C1. A device is selected, capture is started and stopped; the device is
    selected and capture started again on the same channel, and [Stop] is
    called again.  This second [Stop] returns the nil error and does
    nothing, the [sync.Once] having run: the client is still capturing and
    its connection is still held, not disconnected.  The callback that runs
    after it puts its event on the caller's channel. *)
Lemma delivery_after_Stop :
  exists w1 w2 w3,
    (SelectDevice 0 oneSource ;; StartCapture (Some 0%nat) ;; Stop)
      (fresh None [make_chan 1]) = Ok None w1
    /\ (SelectDevice 0 oneSource ;; StartCapture (Some 0%nat) ;; Stop) w1 = Ok None w2
    /\ handleMIDIMessage [x90; x3c; x64] 5 w2 = Ok tt w3
    /\ queue <$> (chans w2 !! 0%nat) = Some []
    /\ queue <$> (chans w3 !! 0%nat) = Some [mkMIDI 5 x90 x3c x64]
    /\ capturing (client w2) = true
    /\ portConn (client w2) = Some 7%nat
    /\ disconnected w2 = [7%nat].
Proof.
  eexists _, _, _.
  split; [vm_compute; reflexivity|].
  split; [vm_compute; reflexivity|].
  split; [vm_compute; reflexivity|].
  repeat split; reflexivity.
Qed.

(** ** The port connection *)

(** [SelectDevice] with an index in range: the connection held before is
    disconnected and cleared first; what is held afterwards is what
    [Connect] returned, or nothing when the input port could not be made. *)
Lemma SelectDevice_in_range (w : World) (native : Native)
    (sources : list Source) (source : Source) (deviceID : Z) :
  mu (client w) = false ->
  AllSources native = (sources, None) ->
  0 <= deviceID ->
  sources !! Z.to_nat deviceID = Some source ->
  exists e w',
    SelectDevice deviceID native w = Ok e w'
    /\ disconnected w' = (disconnected w ++ conn_list (portConn (client w)))%list
    /\ portConn (client w') =
         match snd (NewInputPort native) with
         | Some _ => None
         | None => fst (Connect native (fst (NewInputPort native)) source)
         end.
Proof.
  intros Hmu Hsrc Hpos Hsource. unfold SelectDevice.
  rewrite (locked_free _ _ Hmu), Hsrc.
  assert (((deviceID <? 0) || (deviceID >=? Z.of_nat (length sources)))%Z = false) as ->.
  { apply orb_false_iff. split; [apply Z.ltb_ge; lia|].
    apply lookup_lt_Some in Hsource.
    rewrite Z.geb_leb. apply Z.leb_gt. lia. }
  destruct w as [m l cs d]; destruct m as [ec ip pc f mu0 cp n so].
  destruct native as [srcs [port [e1|]] conn]; simpl in *.
  all: unfold deferring, bind, read, log, modify, ret, index, Disconnect; simpl.
  all: destruct pc; simpl; rewrite Hsource; simpl.
  1,2: eexists _, _; split; [reflexivity|]; simpl;
    rewrite ?app_nil_r; split; reflexivity.
  all: destruct (conn port source) as [pc' [e2|]]; simpl;
    eexists _, _; (split; [reflexivity|]); simpl;
    rewrite ?app_nil_r; split; reflexivity.
Qed.

(** The connection, operation by operation.  On an idle client:
    - [StartCapture] on a client that is not capturing, and the callback,
      leave the connection and the record of disconnections as they were, so
      a client without connection can be capturing;
    - the [Stop] that finds the [sync.Once] unused and the client capturing
      returns with the connection cleared, having called [Disconnect] on it
      once if there was one;
    - [SelectDevice] with an index in range disconnects and clears the
      connection held before, and holds afterwards what [Connect] returned
      (nothing when the input port could not be made). *)
Theorem portConn_lifecycle (w : World) :
  idle w ->
  (forall ch, capturing (client w) = false ->
     exists w', StartCapture (Some ch) w = Ok tt w'
       /\ portConn (client w') = portConn (client w)
       /\ disconnected w' = disconnected w
       /\ capturing (client w') = true)
  /\ (forall Data now,
        portConn (client (world_of (handleMIDIMessage Data now w))) = portConn (client w)
        /\ disconnected (world_of (handleMIDIMessage Data now w)) = disconnected w)
  /\ (capturing (client w) = true -> stopOnce (client w) = false ->
      exists w', Stop w = Ok None w'
        /\ portConn (client w') = None
        /\ disconnected w' = (disconnected w ++ conn_list (portConn (client w)))%list)
  /\ (forall native sources source deviceID,
        AllSources native = (sources, None) ->
        0 <= deviceID ->
        sources !! Z.to_nat deviceID = Some source ->
        exists e w',
          SelectDevice deviceID native w = Ok e w'
          /\ disconnected w' = (disconnected w ++ conn_list (portConn (client w)))%list
          /\ portConn (client w') =
               match snd (NewInputPort native) with
               | Some _ => None
               | None => fst (Connect native (fst (NewInputPort native)) source)
               end).
Proof.
  intros [Hmu Hwg]. repeat split.
  - intros ch Hcap. eexists. split; [apply StartCapture_Some; assumption|].
    repeat split; reflexivity.
  - destruct (callback_frame Data now w) as [-> _]. reflexivity.
  - apply callback_frame.
  - intros Hcap Hso. exists (after_Stop w).
    split; [apply Stop_idle; split; assumption|].
    unfold after_Stop. rewrite Hso, Hcap. split; reflexivity.
  - intros native sources source deviceID.
    apply SelectDevice_in_range. exact Hmu.
Qed.

(** An instance: [Stop] on a capturing client that holds connection 7. *)
Lemma portConn_lifecycle_witness :
  let w := mkWorld (mkClientMid (Some 0%nat) 1%nat (Some 7%nat) None false true 0%nat false)
                   [] [make_chan 1] [] in
  exists w', Stop w = Ok None w'
    /\ portConn (client w') = None
    /\ disconnected w' = [7%nat].
Proof.
  intros w.
  destruct (portConn_lifecycle w) as (_ & _ & H & _); [split; reflexivity|].
  apply H; reflexivity.
Defined.

(** On a new client [StartCapture] returns with the capturing flag set and
    no connection: the session is capturing and its device handle is nil. *)
Lemma capturing_without_connection :
  exists w',
    StartCapture (Some 0%nat) (fresh None [make_chan 1]) = Ok tt w'
    /\ capturing (client w') = true
    /\ portConn (client w') = None.
Proof. eexists. repeat split; vm_compute; reflexivity. Qed.

(** C6. [Stop] on a client with a device selected and capture not started
    runs its body, finds the client not capturing and leaves the connection
    in place, not disconnected; a later [Stop] does nothing, the [sync.Once]
    having run. *)
Lemma Stop_before_capture_keeps_connection :
  exists w1 w2,
    SelectDevice 0 oneSource (fresh None []) = Ok None w1
    /\ portConn (client w1) = Some 7%nat
    /\ Stop_times 2 w1 = Ok [None; None] w2
    /\ portConn (client w2) = Some 7%nat
    /\ disconnected w2 = [].
Proof.
  eexists _, _. split; [vm_compute; reflexivity|].
  split; [reflexivity|].
  split; [vm_compute; reflexivity|].
  split; reflexivity.
Qed.

(** ** The earlier variant *)

(** The callback of the earlier variant does what the current one does. *)
Lemma Legacy_callback_same (Data : list byte) (now : Z) (w : World) :
  Legacy.handleMIDIMessage Data now w = handleMIDIMessage Data now w.
Proof.
  rewrite handleMIDIMessage_callback.
  unfold Legacy.handleMIDIMessage, callback, bind, read, log, modify, logging.
  destruct (eventChannel (client w)) as [ch|]; [|reflexivity].
  destruct Data as [|d0 [|d1 [|d2 rest]]]; try reflexivity.
  simpl. unfold index, ret. simpl.
  destruct (filtered_out _ d0); reflexivity.
Qed.

(** The nil check of [StartCapture] is the same, without the mutex. *)
Lemma Legacy_StartCapture_nil (w : World) :
  Legacy.StartCapture None w =
    Ok tt (logging [mkLog ErrorLevel "StartCapture called with nil eventChannel" []] w).
Proof. reflexivity. Qed.

(** Nor does the earlier [StartCapture] look at the connection. *)
Lemma Legacy_StartCapture_installs (w : World) (ch : ChanRef) :
  capturing (client w) = false ->
  Legacy.StartCapture (Some ch) w =
    Ok tt (set_capturing true
             (set_eventChannel (Some ch)
                (logging [mkLog InfoLevel "Starting MIDI event capture" []] w))).
Proof.
  intros Hcap. unfold Legacy.StartCapture, bind, read, log, modify, ret, logging.
  rewrite Hcap. reflexivity.
Qed.

(** Before any channel is stored the earlier [Stop] returns nil each time,
    and the second call finds no connection to disconnect. *)
Lemma Legacy_Stop_twice (w : World) :
  mu (client w) = false ->
  eventChannel (client w) = None ->
  exists w1 w2,
    Legacy.Stop w = Ok None w1
    /\ Legacy.Stop w1 = Ok None w2
    /\ portConn (client w1) = None
    /\ disconnected w1 = (disconnected w ++ conn_list (portConn (client w)))%list
    /\ disconnected w2 = disconnected w1.
Proof.
  intros Hmu Hec.
  destruct w as [m l cs d]; destruct m as [ec ip pc f mu0 cp n so].
  simpl in *; subst.
  destruct pc; eexists _, _; (split; [reflexivity|]); simpl;
    (split; [reflexivity|]); simpl; rewrite ?app_nil_r; repeat split; reflexivity.
Qed.

(** Once a channel is stored the earlier [Stop] panics in the nil store,
    after it has disconnected, and the capturing flag stays set. *)
Lemma Legacy_Stop_panics (w : World) (ch : ChanRef) :
  mu (client w) = false ->
  eventChannel (client w) = Some ch ->
  exists w',
    Legacy.Stop w = Panicked "sync/atomic: store of nil value into Value" w'
    /\ capturing (client w') = capturing (client w)
    /\ eventChannel (client w') = Some ch
    /\ portConn (client w') = None
    /\ disconnected w' = (disconnected w ++ conn_list (portConn (client w)))%list.
Proof.
  intros Hmu Hec.
  destruct w as [m l cs d]; destruct m as [ec ip pc f mu0 cp n so].
  simpl in *; subst.
  destruct pc; eexists; (split; [reflexivity|]); simpl;
    rewrite ?app_nil_r; repeat split; reflexivity.
Qed.

(** ** The run of the specification's last test

    Two devices are listed, the second is selected, capture starts on a
    channel with room, the bytes [0x90 0x3C 0x64] arrive, and [Stop] is
    called; a payload that arrives afterwards is not delivered. *)
Example end_to_end :
  let native :=
    mkNative ([mkSource "A" "EA" "MA"; mkSource "B" "EB" "MB"], None) (1%nat, None)
             (fun _ _ => (Some 7%nat, None)) in
  exists devices w1 w2 w3 w4 w5,
    ListDevices native (fresh None [make_chan 4]) = Ok (devices, None) w1
    /\ length devices = 2%nat
    /\ SelectDevice 1 native w1 = Ok None w2
    /\ portConn (client w2) = Some 7%nat
    /\ StartCapture (Some 0%nat) w2 = Ok tt w3
    /\ handleMIDIMessage [x90; x3c; x64] 1700000000000000000 w3 = Ok tt w4
    /\ queue <$> (chans w4 !! 0%nat) = Some [mkMIDI 1700000000000000000 x90 x3c x64]
    /\ (Stop ;; handleMIDIMessage [x90; x3c; x64] 1700000000000000001) w4 = Ok tt w5
    /\ chans w5 !! 0%nat = chans w4 !! 0%nat
    /\ disconnected w5 = [7%nat].
Proof.
  intros native. eexists _, _, _, _, _, _.
  split; [vm_compute; reflexivity|].
  split; [reflexivity|].
  split; [vm_compute; reflexivity|].
  split; [reflexivity|].
  split; [vm_compute; reflexivity|].
  split; [vm_compute; reflexivity|].
  split; [reflexivity|].
  split; [vm_compute; reflexivity|].
  split; reflexivity.
Qed.

(** * Further properties of the client *)

(** ** ListDevices *)

(** [map] keeps the positions. *)
Lemma lookup_map {A B} (f : A -> B) (l : list A) (i : nat) (x : A) :
  l !! i = Some x -> map f l !! i = Some (f x).
Proof.
  revert i. induction l as [|a l IH]; intros [|i] H; simpl in *; try discriminate.
  - inversion H. reflexivity.
  - apply IH. exact H.
Qed.

(** [ListDevices] takes no lock and writes nothing but a warning.  Mutex
    held or not, it returns with the client, the channels and the record of
    disconnections as they were.  It returns an error exactly when the
    enumeration failed or gave no source, and otherwise one descriptor per
    source, in the order of the sources. *)
Theorem ListDevices_fails_iff (native : Native) (w : World) :
  exists devices err w',
    ListDevices native w = Ok (devices, err) w'
    /\ client w' = client w
    /\ chans w' = chans w
    /\ disconnected w' = disconnected w
    /\ (err <> None <-> snd (AllSources native) <> None \/ fst (AllSources native) = [])
    /\ (err = None ->
        logged w' = logged w
        /\ length devices = length (fst (AllSources native))
        /\ forall i source, fst (AllSources native) !! i = Some source ->
             devices !! i = Some (mkDeviceInfo (source_Name source)
                                    (source_Manufacturer source)
                                    (source_EntityName source))).
Proof.
  unfold ListDevices. destruct (AllSources native) as [sources [e|]]; simpl.
  - eexists _, _, _. do 4 (split; [reflexivity|]). split.
    + split; [intros _; left; discriminate | intros _; discriminate].
    + discriminate.
  - destruct sources as [|s0 rest]; simpl.
    + eexists _, _, _. do 4 (split; [reflexivity|]). split.
      * split; [intros _; right; reflexivity | intros _; discriminate].
      * discriminate.
    + eexists _, _, _. do 4 (split; [reflexivity|]). split.
      * split; [intros H; contradiction | intros [H|H]; [contradiction | discriminate]].
      * intros _. split; [reflexivity|]. split.
        -- simpl. rewrite length_map. reflexivity.
        -- intros i source Hi.
           apply (lookup_map
                    (fun source => mkDeviceInfo (source_Name source)
                                     (source_Manufacturer source)
                                     (source_EntityName source))
                    (s0 :: rest) i source Hi).
Qed.

(** ** SelectDevice *)

(** The bounds check of [SelectDevice], as a proposition. *)
Lemma bounds_check (deviceID : Z) (sources : list Source) :
  ((deviceID <? 0) || (deviceID >=? Z.of_nat (length sources)))%Z = false <->
  0 <= deviceID < Z.of_nat (length sources).
Proof.
  rewrite orb_false_iff, Z.ltb_ge, Z.geb_leb, Z.leb_gt. tauto.
Qed.

(** Past the bounds check the index expression finds its source. *)
Lemma in_bounds_lookup (deviceID : Z) (sources : list Source) :
  0 <= deviceID < Z.of_nat (length sources) ->
  exists source, sources !! Z.to_nat deviceID = Some source.
Proof.
  intros H. apply lookup_lt_is_Some_2. lia.
Qed.

(** With the mutex free [SelectDevice] returns, whatever the index and
    whatever the native layer answers: it does not block and the index
    expression does not panic.  It leaves the mutex free.  The error is nil
    exactly when the enumeration succeeded, the index is in range, and both
    the input port and the connection were made. *)
Theorem SelectDevice_succeeds_iff (w : World) (native : Native) (deviceID : Z) :
  mu (client w) = false ->
  exists e w',
    SelectDevice deviceID native w = Ok e w'
    /\ mu (client w') = false
    /\ (e = None <->
        snd (AllSources native) = None
        /\ snd (NewInputPort native) = None
        /\ exists source,
             0 <= deviceID
             /\ fst (AllSources native) !! Z.to_nat deviceID = Some source
             /\ snd (Connect native (fst (NewInputPort native)) source) = None).
Proof.
  intros Hmu. unfold SelectDevice. rewrite (locked_free _ _ Hmu).
  destruct w as [m l cs d]; destruct m as [ec ip pc f mu0 cp n so].
  destruct native as [[sources [e0|]] [port [e1|]] conn]; simpl.
  1,2: eexists _, _; split; [reflexivity|]; split; [reflexivity|];
    split; [discriminate | intros (H & _); discriminate H].
  all: destruct ((deviceID <? 0) || (deviceID >=? Z.of_nat (length sources)))%Z eqn:B.
  1,3: unfold deferring, bind, log, modify, ret; simpl;
    eexists _, _; split; [reflexivity|]; split; [reflexivity|];
    split; [discriminate|];
    intros (_ & _ & source & Hpos & Hs & _);
    apply lookup_lt_Some in Hs;
    assert (((deviceID <? 0) || (deviceID >=? Z.of_nat (length sources)))%Z = false)
      as B' by (apply bounds_check; lia);
    congruence.
  all: apply bounds_check in B; destruct (in_bounds_lookup _ _ B) as [source Hs];
    unfold deferring, bind, read, log, modify, ret, index, Disconnect; simpl;
    destruct pc; simpl; rewrite Hs; simpl.
  1,2: eexists _, _; split; [reflexivity|]; split; [reflexivity|];
    split; [discriminate | intros (_ & H & _); discriminate H].
  all: destruct (conn port source) as [pc' [e2|]] eqn:C; simpl;
    eexists _, _; (split; [reflexivity|]); (split; [reflexivity|]).
  1,3: split; [discriminate|];
    intros (_ & _ & source' & _ & Hs' & Hc);
    cbn [fst snd AllSources NewInputPort Connect] in Hs', Hc;
    inversion Hs'; subst; rewrite C in Hc; discriminate Hc.
  all: split; [intros _|reflexivity];
    split; [reflexivity|]; split; [reflexivity|];
    exists source; rewrite C; split; [lia|]; split; reflexivity.
Qed.

(** An instance: the one source of [oneSource] is selected on a new client. *)
Lemma SelectDevice_succeeds_iff_witness :
  exists e w',
    SelectDevice 0 oneSource (fresh None []) = Ok e w'
    /\ mu (client w') = false
    /\ (e = None <->
        snd (AllSources oneSource) = None
        /\ snd (NewInputPort oneSource) = None
        /\ exists source,
             0 <= 0
             /\ fst (AllSources oneSource) !! Z.to_nat 0 = Some source
             /\ snd (Connect oneSource (fst (NewInputPort oneSource)) source) = None).
Proof. apply (SelectDevice_succeeds_iff (fresh None []) oneSource 0). reflexivity. Defined.

(** The world after a [SelectDevice] on which everything succeeded. *)
Lemma SelectDevice_ok (w : World) (native : Native) (sources : list Source)
    (source : Source) (deviceID : Z) (port : InputPort) (conn : option PortConn) :
  mu (client w) = false ->
  AllSources native = (sources, None) ->
  0 <= deviceID ->
  sources !! Z.to_nat deviceID = Some source ->
  NewInputPort native = (port, None) ->
  Connect native port source = (conn, None) ->
  SelectDevice deviceID native w =
    Ok None
       (mkWorld
          (mkClientMid (eventChannel (client w)) port conn (midiEventFilter (client w))
                       false (capturing (client w)) (wg (client w)) (stopOnce (client w)))
          (logged w ++
             [mkLog InfoLevel "MIDI device selected"
                    [FInt "deviceID" deviceID; FString "deviceName" (source_Name source)];
              mkLog InfoLevel "MIDI device successfully connected" []])
          (chans w)
          (disconnected w ++ conn_list (portConn (client w)))).
Proof.
  intros Hmu Hsrc Hpos Hs Hport Hconn. unfold SelectDevice.
  rewrite (locked_free _ _ Hmu), Hsrc.
  assert (((deviceID <? 0) || (deviceID >=? Z.of_nat (length sources)))%Z = false) as ->.
  { apply bounds_check. apply lookup_lt_Some in Hs. lia. }
  rewrite Hport.
  destruct w as [m l cs d]; destruct m as [ec ip pc f mu0 cp n so].
  unfold deferring, bind, read, log, modify, ret, index, Disconnect; simpl.
  destruct pc; simpl; rewrite Hs; simpl; rewrite Hconn; simpl;
    rewrite ?app_nil_r, <- ?app_assoc; reflexivity.
Qed.





(** Selecting a device, then another: the first connection is disconnected
    when the second device is selected, after whatever was held before, and
    the second connection is the one held. *)
Theorem reselect_disconnects_previous (w : World) (n1 n2 : Native)
    (ss1 ss2 : list Source) (s1 s2 : Source) (i1 i2 : Z)
    (p1 p2 : InputPort) (c1 : PortConn) (c2 : option PortConn) :
  mu (client w) = false ->
  AllSources n1 = (ss1, None) -> 0 <= i1 -> ss1 !! Z.to_nat i1 = Some s1 ->
  NewInputPort n1 = (p1, None) -> Connect n1 p1 s1 = (Some c1, None) ->
  AllSources n2 = (ss2, None) -> 0 <= i2 -> ss2 !! Z.to_nat i2 = Some s2 ->
  NewInputPort n2 = (p2, None) -> Connect n2 p2 s2 = (c2, None) ->
  exists w1 w2,
    SelectDevice i1 n1 w = Ok None w1
    /\ SelectDevice i2 n2 w1 = Ok None w2
    /\ portConn (client w1) = Some c1
    /\ portConn (client w2) = c2
    /\ disconnected w2 =
         (disconnected w ++ conn_list (portConn (client w)) ++ [c1])%list.
Proof.
  intros Hmu A1 P1 L1 N1 C1 A2 P2 L2 N2 C2.
  eexists _, _.
  split; [apply (SelectDevice_ok w n1 ss1 s1 i1 p1 (Some c1)); assumption|].
  split; [apply (SelectDevice_ok _ n2 ss2 s2 i2 p2 c2); try assumption; reflexivity|].
  simpl. rewrite <- app_assoc. repeat split; reflexivity.
Qed.

(** An instance: the one source is selected twice on a new client. *)
Lemma reselect_disconnects_previous_witness :
  exists w1 w2,
    SelectDevice 0 oneSource (fresh None []) = Ok None w1
    /\ SelectDevice 0 oneSource w1 = Ok None w2
    /\ portConn (client w1) = Some 7%nat
    /\ portConn (client w2) = Some 7%nat
    /\ disconnected w2 = [7%nat].
Proof.
  apply (reselect_disconnects_previous (fresh None []) oneSource oneSource
           [mkSource "Keys" "Keys Entity" "Acme"] [mkSource "Keys" "Keys Entity" "Acme"]
           (mkSource "Keys" "Keys Entity" "Acme") (mkSource "Keys" "Keys Entity" "Acme")
           0 0 1%nat 1%nat 7%nat (Some 7%nat)); try reflexivity; lia.
Defined.

(** ** The callback *)

(** A send panics exactly on a closed channel. *)
Lemma trySend_closed (e : MIDI) (c : Chan) :
  trySend e c = SendOnClosed <-> closed c = true.
Proof.
  unfold trySend. destruct (closed c); [tauto|].
  destruct (0 <? waiting c)%nat; [split; discriminate|].
  destruct (length (queue c) <? cap c)%nat; split; discriminate.
Qed.

(** The callback never blocks.  It returns, the client as it was, or it
    panics with the world as it was; and it panics exactly when the stored
    channel is closed and the payload has three bytes and passes the
    filter. *)
Theorem callback_panics_iff (w : World) (Data : list byte) (now : Z) :
  ((exists w', handleMIDIMessage Data now w = Ok tt w' /\ client w' = client w)
   \/ handleMIDIMessage Data now w = Panicked "send on closed channel" w)
  /\ (handleMIDIMessage Data now w = Panicked "send on closed channel" w <->
      exists ch c,
        eventChannel (client w) = Some ch
        /\ chans w !! ch = Some c
        /\ closed c = true
        /\ passing (midiEventFilter (client w)) (Data, now) <> None).
Proof.
  rewrite handleMIDIMessage_callback. unfold callback, passing.
  destruct (eventChannel (client w)) as [ch|] eqn:Hch.
  2: { split; [left; eexists; split; reflexivity|].
       split; [discriminate | intros (ch & c & H & _); discriminate H]. }
  destruct Data as [|d0 [|d1 [|d2 rest]]].
  1-3: split; [left; eexists; split; reflexivity|];
    split; [discriminate | intros (ch' & c & _ & _ & _ & H); contradiction].
  destruct (filtered_out (midiEventFilter (client w)) d0).
  { split; [left; eexists; split; reflexivity|].
    split; [discriminate | intros (ch' & c & _ & _ & _ & H); contradiction]. }
  unfold send_or_drop.
  destruct (chans w !! ch) as [c|] eqn:Hc.
  2: { split; [left; eexists; split; reflexivity|].
       split; [discriminate | intros (ch' & c & H1 & H2 & _)].
       inversion H1; subst. congruence. }
  pose proof (trySend_closed (mkMIDI (uint64 now) d0 d1 d2) c) as Hclosed.
  destruct (trySend (mkMIDI (uint64 now) d0 d1 d2) c) as [c'| |].
  - split; [left; eexists; split; reflexivity|].
    split; [discriminate|].
    intros (ch0 & c0 & H1 & H2 & H3 & _).
    assert (c0 = c) by congruence. subst c0.
    destruct Hclosed as [_ Hx]. specialize (Hx H3). discriminate Hx.
  - unfold log, modify.
    split; [left; eexists; split; reflexivity|].
    split; [discriminate|].
    intros (ch0 & c0 & H1 & H2 & H3 & _).
    assert (c0 = c) by congruence. subst c0.
    destruct Hclosed as [_ Hx]. specialize (Hx H3). discriminate Hx.
  - split; [right; reflexivity|].
    split; [intros _|reflexivity].
    exists ch, c. split; [reflexivity|]. split; [exact Hc|].
    split; [apply Hclosed; reflexivity | discriminate].
Qed.

(** One payload arriving at an open channel on which nobody is receiving:
    the event, if there is one and there is room, goes to the end of the
    buffer. *)
Lemma callback_step (w : World) (ch : ChanRef) (c : Chan) (Data : list byte) (now : Z) :
  eventChannel (client w) = Some ch ->
  chans w !! ch = Some c ->
  closed c = false -> waiting c = 0%nat ->
  exists w1,
    handleMIDIMessage Data now w = Ok tt w1
    /\ client w1 = client w
    /\ disconnected w1 = disconnected w
    /\ chans w1 =
         <[ch := mkChan (cap c)
                   (queue c ++ take (cap c - length (queue c))
                      (option_list (passing (midiEventFilter (client w)) (Data, now))))
                   0 (handed c) false]> (chans w).
Proof.
  intros Hch Hc Hcl Hw.
  assert (forall l, l = [] ->
            chans w = <[ch := mkChan (cap c) (queue c ++ take (cap c - length (queue c)) l)
                              0 (handed c) false]> (chans w)) as Hsame.
  { intros l ->. rewrite take_nil, app_nil_r. symmetry. apply list_insert_id.
    transitivity (Some c); [exact Hc|]. destruct c; simpl in *; subst. reflexivity. }
  rewrite handleMIDIMessage_callback. unfold callback, passing. rewrite Hch.
  destruct Data as [|d0 [|d1 [|d2 rest]]];
    try (eexists; split; [reflexivity|]; repeat split; apply Hsame; reflexivity).
  destruct (filtered_out (midiEventFilter (client w)) d0).
  { eexists; split; [reflexivity|]; repeat split; apply Hsame; reflexivity. }
  unfold send_or_drop. rewrite Hc.
  destruct (Nat.lt_ge_cases (length (queue c)) (cap c)) as [Hroom|Hfull].
  - rewrite trySend_room by assumption.
    eexists; split; [reflexivity|]. repeat split. simpl.
    replace (cap c - length (queue c))%nat with (S (cap c - length (queue c) - 1)) by lia.
    simpl. rewrite take_nil. reflexivity.
  - rewrite trySend_full by assumption.
    eexists; split; [reflexivity|]. repeat split. simpl.
    replace (cap c - length (queue c))%nat with 0%nat by lia.
    rewrite app_nil_r. symmetry. apply list_insert_id.
    transitivity (Some c); [exact Hc|]. destruct c; simpl in *; subst. reflexivity.
Qed.

(** Taking from two lists in a row. *)
Lemma take_app_taken {A} (r : nat) (a b : list A) :
  take r (a ++ b) = (take r a ++ take (r - length (take r a)) b)%list.
Proof.
  rewrite take_app. f_equal. rewrite length_take.
  destruct (Nat.le_gt_cases (length a) r).
  - replace (r `min` length a)%nat with (length a) by lia. reflexivity.
  - replace (r - length a)%nat with 0%nat by lia.
    replace (r - r `min` length a)%nat with 0%nat by lia. reflexivity.
Qed.

(** [omap] over a list with one more element in front. *)
Lemma omap_cons_app {A B} (f : A -> option B) (x : A) (l : list A) :
  omap f (x :: l) = (option_list (f x) ++ omap f l)%list.
Proof. simpl. destruct (f x); reflexivity. Qed.

(** Events reach the sink in the order of arrival, as long as there is
    room.  The stored channel is open and nobody is receiving on it.  After
    any number of callbacks, all of which return, its buffer is what it was
    followed by the events of the payloads that have three bytes and pass
    the filter, in their order, cut at the capacity; nothing else changed
    in the heap, the client or the record of disconnections. *)
Theorem sink_fills_in_order (cbs : list (list byte * Z)) (w : World)
    (ch : ChanRef) (c : Chan) :
  eventChannel (client w) = Some ch ->
  chans w !! ch = Some c ->
  closed c = false -> waiting c = 0%nat ->
  exists w',
    callbacks cbs w = Ok tt w'
    /\ client w' = client w
    /\ disconnected w' = disconnected w
    /\ chans w' =
         <[ch := mkChan (cap c)
                   (queue c ++ take (cap c - length (queue c))
                      (omap (passing (midiEventFilter (client w))) cbs))
                   0 (handed c) false]> (chans w).
Proof.
  revert w c. induction cbs as [|[Data now] rest IH]; intros w c Hch Hc Hcl Hw.
  - exists w. split; [reflexivity|]. repeat split. simpl.
    rewrite take_nil, app_nil_r. symmetry. apply list_insert_id.
    transitivity (Some c); [exact Hc|]. destruct c; simpl in *; subst. reflexivity.
  - destruct (callback_step w ch c Data now Hch Hc Hcl Hw)
      as (w1 & H1 & Hcl1 & Hd1 & Hchans1).
    set (c1 := mkChan (cap c)
                 (queue c ++ take (cap c - length (queue c))
                    (option_list (passing (midiEventFilter (client w)) (Data, now))))
                 0 (handed c) false) in *.
    assert (chans w1 !! ch = Some c1) as Hc1.
    { rewrite Hchans1. apply list_lookup_insert_eq. eapply lookup_lt_Some; eauto. }
    assert (eventChannel (client w1) = Some ch) as Hch1 by (rewrite Hcl1; exact Hch).
    destruct (IH w1 c1 Hch1 Hc1 eq_refl eq_refl) as (w' & H' & Hcl' & Hd' & Hchans').
    exists w'. split; [simpl; unfold bind; rewrite H1; exact H'|].
    split; [congruence|]. split; [congruence|].
    rewrite Hchans', Hchans1, list_insert_insert_eq, Hcl1. f_equal.
    rewrite omap_cons_app. unfold c1.
    cbn [cap queue handed]. f_equal.
    rewrite <- app_assoc. f_equal.
    rewrite take_app_taken, length_app. f_equal. f_equal. lia.
Qed.

(** An instance: three payloads, the second on another channel nibble than
    the filter has, arrive at a channel of capacity 2. *)
Lemma sink_fills_in_order_witness :
  let w := mkWorld (mkClientMid (Some 0%nat) 1%nat (Some 7%nat)
                      (Some (mkFilter [NoteOn; NoteOff])) false true 0%nat false)
                   [] [make_chan 2] [] in
  exists w',
    callbacks [([x90; x3c; x64], 5); ([x91; x3c; x64], 6); ([x80; x3c; x00], 7)] w
      = Ok tt w'
    /\ client w' = client w
    /\ disconnected w' = disconnected w
    /\ chans w' = [mkChan 2 [mkMIDI 5 x90 x3c x64; mkMIDI 7 x80 x3c x00] 0 [] false].
Proof.
  intros w.
  apply (sink_fills_in_order
           [([x90; x3c; x64], 5); ([x91; x3c; x64], 6); ([x80; x3c; x00], 7)]
           w 0%nat (make_chan 2)); reflexivity.
Defined.

(** ** Where StartCapture and Stop do not return *)

(** With the mutex free, [StartCapture] either returns or blocks; it blocks
    exactly when it is given a channel while the client is capturing and
    [Stop] has never run, since the [Stop] it then calls asks for the mutex
    that [StartCapture] holds.  The mutex stays held, so that every later
    [SelectDevice], [StartCapture] and [Stop] blocks as well. *)
Theorem StartCapture_deadlocks_iff (w : World) (ch : option ChanRef) :
  mu (client w) = false ->
  ((exists w', StartCapture ch w = Ok tt w')
   \/ (exists w', StartCapture ch w = Blocked w'
         /\ (forall deviceID native, SelectDevice deviceID native w' = Blocked w')
         /\ (forall ch', StartCapture ch' w' = Blocked w')
         /\ (exists w'', Stop w' = Blocked w'')))
  /\ ((exists w', StartCapture ch w = Blocked w') <->
      ch <> None /\ capturing (client w) = true /\ stopOnce (client w) = false).
Proof.
  intros Hmu. destruct ch as [r|].
  - destruct (capturing (client w)) eqn:Hcap.
    + destruct (stopOnce (client w)) eqn:Hso.
      * rewrite (StartCapture_while_capturing_replaces _ _ Hmu Hcap Hso).
        split; [left; eauto|].
        split; [intros [w' H]; discriminate H | intros (_ & _ & H); discriminate H].
      * rewrite (StartCapture_while_capturing_blocks _ _ Hmu Hcap Hso).
        split.
        -- right. eexists. split; [reflexivity|].
           split; [intros; apply locked_held; reflexivity|].
           split; [intros; apply locked_held; reflexivity|].
           unfold Stop, stopOnce_Do, bind. simpl. rewrite Hso.
           unfold deferring, bind, log, modify, locked, mu_Lock. simpl.
           eexists. reflexivity.
        -- split; [intros _; repeat split; discriminate | eauto].
    + rewrite (StartCapture_Some _ _ Hmu Hcap).
      split; [left; eauto|].
      split; [intros [w' H]; discriminate H | intros (_ & H & _); discriminate H].
  - rewrite (StartCapture_None _ Hmu).
    split; [left; eauto|].
    split; [intros [w' H]; discriminate H | intros (H & _); contradiction].
Qed.

(** An instance: capture is started twice on a new client. *)
Lemma StartCapture_deadlocks_iff_witness :
  let w := set_capturing true
             (set_eventChannel (Some 0%nat)
                (logging [mkLog InfoLevel "Starting MIDI event capture" []]
                   (fresh None [make_chan 1]))) in
  (exists w', StartCapture (Some 0%nat) w = Blocked w') <->
  Some 0%nat <> None /\ capturing (client w) = true /\ stopOnce (client w) = false.
Proof.
  intros w.
  destruct (StartCapture_deadlocks_iff w (Some 0%nat)) as [_ H]; [reflexivity|].
  exact H.
Defined.

(** [Stop] waits for the callbacks that are counted.  With the mutex free,
    [Stop] returns nil when no callback is counted, or the client is not
    capturing, or [Stop] has run before.  When the first [Stop] finds the
    client capturing with a callback counted, it does not get past
    [wg.Wait]: by then it has disconnected and cleared the connection and
    stored its own channel, and it holds the mutex. *)
Theorem Stop_waits_for_callbacks (w : World) :
  mu (client w) = false ->
  (wg (client w) = 0%nat \/ capturing (client w) = false \/ stopOnce (client w) = true ->
   exists w', Stop w = Ok None w')
  /\ (wg (client w) <> 0%nat -> capturing (client w) = true ->
      stopOnce (client w) = false ->
      exists w',
        Stop w = Blocked w'
        /\ eventChannel (client w') = Some (length (chans w))
        /\ chans w' = (chans w ++ [make_chan 0])%list
        /\ portConn (client w') = None
        /\ disconnected w' = (disconnected w ++ conn_list (portConn (client w)))%list
        /\ capturing (client w') = false
        /\ mu (client w') = true
        /\ wg (client w') = wg (client w)).
Proof.
  intros Hmu.
  destruct w as [m l cs d]; destruct m as [ec ip pc f mu0 cp n so].
  simpl in *; subst.
  unfold Stop, stopOnce_Do, locked, mu_Lock.
  unfold deferring, bind, read, log, modify, make, Disconnect, wg_Wait, ret; simpl.
  split.
  - intros H. destruct so; simpl; [eauto|].
    destruct cp; simpl; [|eauto].
    destruct H as [H|[H|H]]; try discriminate. subst n.
    destruct pc; simpl; eauto.
  - intros Hn -> ->. simpl.
    destruct pc; simpl; destruct n; try contradiction; simpl;
      eexists; (split; [reflexivity|]); simpl; rewrite ?app_nil_r;
      repeat split; reflexivity.
Qed.

(** An instance: one callback is counted on a capturing client that holds
    connection 7. *)
Lemma Stop_waits_for_callbacks_witness :
  let w := mkWorld (mkClientMid (Some 0%nat) 1%nat (Some 7%nat) None false true 1%nat false)
                   [] [make_chan 1] [] in
  exists w',
    Stop w = Blocked w'
    /\ eventChannel (client w') = Some 1%nat
    /\ chans w' = [make_chan 1; make_chan 0]
    /\ portConn (client w') = None
    /\ disconnected w' = [7%nat]
    /\ capturing (client w') = false
    /\ mu (client w') = true
    /\ wg (client w') = 1%nat.
Proof.
  intros w.
  destruct (Stop_waits_for_callbacks w) as [_ H]; [reflexivity|].
  apply H; [discriminate | reflexivity | reflexivity].
Defined.

(** ** Closing the caller's channel *)

(** [Stop], then [close]: the order of the example programs is safe.  After
    the [Stop] that shuts capture down, the caller closes one of its open
    channels; the callbacks that arrive afterwards all return, none panics,
    and none writes to a channel. *)
Theorem Stop_then_close_is_safe (w : World) (r : ChanRef) (c : Chan)
    (cbs : list (list byte * Z)) :
  idle w ->
  capturing (client w) = true ->
  stopOnce (client w) = false ->
  chans w !! r = Some c ->
  closed c = false ->
  exists w1 w2 w3,
    Stop w = Ok None w1
    /\ close_chan (Some r) w1 = Ok tt w2
    /\ callbacks cbs w2 = Ok tt w3
    /\ chans w3 = chans w2
    /\ closed <$> (chans w3 !! r) = Some true.
Proof.
  intros Hi Hcap Hso Hc Hcl.
  pose proof (lookup_lt_Some _ _ _ Hc) as Hlt.
  assert (chans (after_Stop w) !! r = Some c) as Hc1.
  { unfold after_Stop. rewrite Hso, Hcap. simpl.
    rewrite lookup_app_l by exact Hlt. exact Hc. }
  set (w2 := set_chans (<[r := mkChan (cap c) (queue c) 0 (handed c) true]>
                          (chans (after_Stop w))) (after_Stop w)).
  assert (quiet w2) as Hq.
  { unfold quiet, w2, after_Stop. rewrite Hso, Hcap. simpl.
    rewrite list_lookup_insert_ne by lia.
    apply list_lookup_middle. reflexivity. }
  destruct (quiet_callbacks cbs w2 Hq) as [entries He].
  exists (after_Stop w), w2, (logging entries w2).
  split; [apply Stop_idle; exact Hi|].
  split; [unfold close_chan; rewrite Hc1, Hcl; reflexivity|].
  split; [exact He|]. split; [reflexivity|].
  unfold w2. simpl.
  rewrite list_lookup_insert_eq; [reflexivity|].
  eapply lookup_lt_Some. exact Hc1.
Qed.

(** An instance: capture on channel 0, stopped, the channel closed, and two
    payloads after that. *)
Lemma Stop_then_close_is_safe_witness :
  let w := mkWorld (mkClientMid (Some 0%nat) 1%nat (Some 7%nat) None false true 0%nat false)
                   [] [make_chan 1] [] in
  exists w1 w2 w3,
    Stop w = Ok None w1
    /\ close_chan (Some 0%nat) w1 = Ok tt w2
    /\ callbacks [([x90; x3c; x64], 5); ([x80; x3c; x00], 6)] w2 = Ok tt w3
    /\ chans w3 = chans w2
    /\ closed <$> (chans w3 !! 0%nat) = Some true.
Proof.
  intros w.
  apply (Stop_then_close_is_safe w 0%nat (make_chan 1)
           [([x90; x3c; x64], 5); ([x80; x3c; x00], 6)]);
    try reflexivity. split; reflexivity.
Defined.

(** [close] without [Stop]: when the caller closes the channel that is
    stored while capture is on, the next payload that has three bytes and
    passes the filter makes the callback panic. *)
Theorem close_without_Stop_panics (w : World) (r : ChanRef) (c : Chan)
    (d0 d1 d2 : byte) (rest : list byte) (now : Z) :
  eventChannel (client w) = Some r ->
  chans w !! r = Some c ->
  closed c = false ->
  filtered_out (midiEventFilter (client w)) d0 = false ->
  exists w1,
    close_chan (Some r) w = Ok tt w1
    /\ handleMIDIMessage (d0 :: d1 :: d2 :: rest) now w1 =
         Panicked "send on closed channel" w1.
Proof.
  intros Hch Hc Hcl Hf. eexists.
  split; [unfold close_chan; rewrite Hc, Hcl; reflexivity|].
  rewrite handleMIDIMessage_callback. unfold callback. simpl.
  rewrite Hch, Hf. unfold send_or_drop. simpl.
  rewrite list_lookup_insert_eq by (eapply lookup_lt_Some; exact Hc).
  reflexivity.
Qed.

(** An instance: the channel of a capturing client is closed and a Note On
    arrives. *)
Lemma close_without_Stop_panics_witness :
  let w := mkWorld (mkClientMid (Some 0%nat) 1%nat (Some 7%nat) None false true 0%nat false)
                   [] [make_chan 1] [] in
  exists w1,
    close_chan (Some 0%nat) w = Ok tt w1
    /\ handleMIDIMessage [x90; x3c; x64] 5 w1 = Panicked "send on closed channel" w1.
Proof.
  intros w.
  apply (close_without_Stop_panics w 0%nat (make_chan 1) x90 x3c x64 [] 5); reflexivity.
Defined.

(** ** The earlier variant *)

(** In the earlier variant capture cannot be stopped.  [StartCapture] with a
    channel on a client that is not capturing, then [Stop]: [Stop] panics in
    the nil store.  The connection is gone by then, the mutex is free again,
    but the channel is still stored and the capturing flag still set, so
    callbacks go on delivering to the channel. *)
Theorem Legacy_Stop_after_StartCapture_panics (w : World) (ch : ChanRef) :
  mu (client w) = false ->
  capturing (client w) = false ->
  exists w',
    (Legacy.StartCapture (Some ch) ;; Legacy.Stop) w =
      Panicked "sync/atomic: store of nil value into Value" w'
    /\ eventChannel (client w') = Some ch
    /\ capturing (client w') = true
    /\ mu (client w') = false
    /\ portConn (client w') = None
    /\ disconnected w' = (disconnected w ++ conn_list (portConn (client w)))%list
    /\ chans w' = chans w.
Proof.
  intros Hmu Hcap.
  destruct w as [m l cs d]; destruct m as [ec ip pc f mu0 cp n so].
  simpl in *; subst.
  destruct pc; eexists; (split; [reflexivity|]); simpl;
    rewrite ?app_nil_r; repeat split; reflexivity.
Qed.

(** An instance: a new client with a device selected. *)
Lemma Legacy_Stop_after_StartCapture_panics_witness :
  let w := mkWorld (mkClientMid None 1%nat (Some 7%nat) None false false 0%nat false)
                   [] [make_chan 1] [] in
  exists w',
    (Legacy.StartCapture (Some 0%nat) ;; Legacy.Stop) w =
      Panicked "sync/atomic: store of nil value into Value" w'
    /\ eventChannel (client w') = Some 0%nat
    /\ capturing (client w') = true
    /\ mu (client w') = false
    /\ portConn (client w') = None
    /\ disconnected w' = [7%nat]
    /\ chans w' = chans w.
Proof.
  intros w. apply (Legacy_Stop_after_StartCapture_panics w 0%nat); reflexivity.
Defined.

(** In the earlier variant a second [StartCapture] panics too: it calls
    [Stop], which panics in the nil store, and the new channel is never
    stored. *)
Theorem Legacy_restart_panics (w : World) (old new : ChanRef) :
  mu (client w) = false ->
  capturing (client w) = true ->
  eventChannel (client w) = Some old ->
  exists w',
    Legacy.StartCapture (Some new) w =
      Panicked "sync/atomic: store of nil value into Value" w'
    /\ eventChannel (client w') = Some old
    /\ capturing (client w') = true
    /\ portConn (client w') = None.
Proof.
  intros Hmu Hcap Hec.
  destruct w as [m l cs d]; destruct m as [ec ip pc f mu0 cp n so].
  simpl in *; subst.
  destruct pc; eexists; (split; [reflexivity|]); simpl; repeat split; reflexivity.
Qed.

(** An instance: a capturing client is given a second channel. *)
Lemma Legacy_restart_panics_witness :
  let w := mkWorld (mkClientMid (Some 0%nat) 1%nat (Some 7%nat) None false true 0%nat false)
                   [] [make_chan 1; make_chan 1] [] in
  exists w',
    Legacy.StartCapture (Some 1%nat) w =
      Panicked "sync/atomic: store of nil value into Value" w'
    /\ eventChannel (client w') = Some 0%nat
    /\ capturing (client w') = true
    /\ portConn (client w') = None.
Proof.
  intros w. apply (Legacy_restart_panics w 0%nat 1%nat); reflexivity.
Defined.

(** ** The filter list *)

(** What [isCommandAllowed] answers depends on the members of the list
    only: neither the order of the commands nor repetitions matter. *)
Theorem isCommandAllowed_same_members (command : byte) (l1 l2 : list MIDICommand) :
  (forall c, In c l1 <-> In c l2) ->
  isCommandAllowed command l1 = isCommandAllowed command l2.
Proof.
  intros H.
  destruct (isCommandAllowed command l1) eqn:E1;
    destruct (isCommandAllowed command l2) eqn:E2; try reflexivity.
  - apply isCommandAllowed_In, H, isCommandAllowed_In in E1. congruence.
  - apply isCommandAllowed_In, H, isCommandAllowed_In in E2. congruence.
Qed.

(** An instance: the filter of the examples, reversed and with a repetition. *)
Lemma isCommandAllowed_same_members_witness :
  isCommandAllowed x80 [NoteOn; NoteOff] = isCommandAllowed x80 [NoteOff; NoteOn; NoteOff].
Proof.
  apply (isCommandAllowed_same_members x80 [NoteOn; NoteOff] [NoteOff; NoteOn; NoteOff]).
  intros c. simpl. tauto.
Defined.

(** ** Disconnections *)

(** What [SelectDevice] disconnects, whatever the native layer answers. *)
Lemma SelectDevice_disconnected (w : World) (native : Native) (deviceID : Z) :
  mu (client w) = false ->
  exists e w',
    SelectDevice deviceID native w = Ok e w'
    /\ (disconnected w' = disconnected w
        \/ disconnected w' = (disconnected w ++ conn_list (portConn (client w)))%list).
Proof.
  intros Hmu. unfold SelectDevice. rewrite (locked_free _ _ Hmu).
  destruct w as [m l cs d]; destruct m as [ec ip pc f mu0 cp n so].
  destruct native as [[sources [e0|]] [port e1] conn]; simpl.
  { eexists _, _. split; [reflexivity|]. left. reflexivity. }
  destruct ((deviceID <? 0) || (deviceID >=? Z.of_nat (length sources)))%Z eqn:B.
  { unfold deferring, bind, log, modify, ret; simpl.
    eexists _, _. split; [reflexivity|]. left. reflexivity. }
  apply bounds_check in B. destruct (in_bounds_lookup _ _ B) as [source Hs].
  unfold deferring, bind, read, log, modify, ret, index, Disconnect; simpl.
  destruct pc; simpl; rewrite Hs; simpl; destruct e1 as [e1|]; simpl.
  1,3: eexists _, _; split; [reflexivity|]; right; simpl;
    rewrite ?app_nil_r; reflexivity.
  all: destruct (conn port source) as [pc' [e2|]]; simpl;
    eexists _, _; (split; [reflexivity|]); right; simpl;
    rewrite ?app_nil_r; reflexivity.
Qed.

(** No call disconnects anything but the connection the client holds when
    the call begins, and no call disconnects it twice.  On an idle client,
    however the call ends, the record of disconnections after it is the
    record before it, with at most the held connection added. *)
Theorem disconnects_only_held (w : World) (o : Op) :
  idle w ->
  disconnected (world_of (perform o w)) = disconnected w
  \/ disconnected (world_of (perform o w)) =
       (disconnected w ++ conn_list (portConn (client w)))%list.
Proof.
  intros [Hmu Hwg]. destruct o as [deviceID native | [ch|] | | Data now]; simpl.
  - destruct (SelectDevice_disconnected w native deviceID Hmu) as (e & w' & HS & H).
    unfold bind. rewrite HS. exact H.
  - destruct (capturing (client w)) eqn:Hcap.
    + destruct (stopOnce (client w)) eqn:Hso.
      * rewrite StartCapture_while_capturing_replaces by assumption. left. reflexivity.
      * rewrite StartCapture_while_capturing_blocks by assumption. left. reflexivity.
    + rewrite StartCapture_Some by assumption. left. reflexivity.
  - rewrite StartCapture_None by assumption. left. reflexivity.
  - unfold bind. rewrite Stop_idle by (split; assumption). simpl.
    unfold after_Stop. destruct (stopOnce (client w)); [left; reflexivity|].
    destruct (capturing (client w)); [right|left]; reflexivity.
  - left. apply callback_frame.
Qed.

(** An instance: [Stop] on a capturing client that holds connection 7. *)
Lemma disconnects_only_held_witness :
  let w := mkWorld (mkClientMid (Some 0%nat) 1%nat (Some 7%nat) None false true 0%nat false)
                   [] [make_chan 1] [3%nat] in
  disconnected (world_of (perform DoStop w)) = disconnected w
  \/ disconnected (world_of (perform DoStop w)) = [3%nat; 7%nat].
Proof.
  intros w. apply (disconnects_only_held w DoStop). split; reflexivity.
Defined.

(** * The facade *)

(** ** Default options *)

(** The loop over the options, over a list in two parts. *)
Lemma apply_options_app (opts1 opts2 : list Option) (options : ClientOptions) :
  apply_options (opts1 ++ opts2) options =
    match apply_options opts1 options with
    | Returns options' => apply_options opts2 options'
    | PanicsOnNil => PanicsOnNil
    | NoReturn => NoReturn
    end.
Proof.
  revert options. induction opts1 as [|opt opts1 IH]; intros options; simpl.
  - reflexivity.
  - destruct (call_Option opt options); auto.
Qed.

(** With a nil option in the list the loop does not come to its end. *)
Lemma apply_options_nil_Option (opts : list Option) (options : ClientOptions) :
  In nil_Option opts -> forall r, apply_options opts options <> Returns r.
Proof.
  revert options. induction opts as [|opt opts IH]; intros options Hin r; simpl.
  - destruct Hin.
  - destruct Hin as [-> | Hin]; simpl; [discriminate|].
    destruct (call_Option opt options); [apply IH; exact Hin | discriminate | discriminate].
Qed.

(** The defaults, field by field. *)
Lemma with_defaults_parts (NewZapLogger : Logger) (given : ClientOptions) :
  opt_Logger (with_defaults NewZapLogger given) =
    Some (match opt_Logger given with Some l => l | None => NewZapLogger end)
  /\ opt_CoreMIDIConfig (with_defaults NewZapLogger given) =
       Some (match opt_CoreMIDIConfig given with
             | Some c => c
             | None => mkCoreMIDIConfig "GO MIDI Client"
             end)
  /\ opt_LogLevel (with_defaults NewZapLogger given) = opt_LogLevel given
  /\ opt_MIDIEventFilter (with_defaults NewZapLogger given) = opt_MIDIEventFilter given
  /\ opt_LogFilePath (with_defaults NewZapLogger given) = opt_LogFilePath given.
Proof.
  destruct given as [lg lv fp flt cfg]. unfold with_defaults. simpl.
  assert ((if (lv =? 0)%Z then LogLevel_of InfoLevel else lv) = lv) as Hlv.
  { destruct (Z.eqb_spec lv 0); [subst; reflexivity | reflexivity]. }
  destruct lg as [l'|]; simpl; destruct (lv =? 0)%Z eqn:E; simpl;
    destruct cfg as [c|]; simpl; rewrite ?E in Hlv; simpl in Hlv; rewrite ?Hlv;
    repeat split; reflexivity.
Qed.

(** [applyDefaultOptions] once the options have been applied: what is left
    is the call of [SetLevel]. *)
Lemma applyDefaultOptions_parts (NewZapLogger : Logger)
    (SetLevel : Logger -> LogLevel -> Call unit) (opts : list Option)
    (given : ClientOptions) :
  apply_options opts zero_options = Returns given ->
  applyDefaultOptions NewZapLogger SetLevel opts =
    match SetLevel (match opt_Logger given with Some l => l | None => NewZapLogger end)
                   (opt_LogLevel given) with
    | Returns _ =>
        Returns (with_defaults NewZapLogger given, None,
                 (match opt_Logger given with Some l => l | None => NewZapLogger end,
                  opt_LogLevel given))
    | PanicsOnNil => PanicsOnNil
    | NoReturn => NoReturn
    end.
Proof.
  intros H. unfold applyDefaultOptions. rewrite H.
  destruct (with_defaults_parts NewZapLogger given) as (Hl & _ & Hlv & _).
  rewrite Hl, Hlv. reflexivity.
Qed.

(** [applyDefaultOptions] returns exactly when every option is a function
    that returns and the logger's [SetLevel] returns; a nil option among
    those given makes it panic before any default is set.  When it returns,
    it returns the nil error and options that have a logger and a CoreMIDI
    configuration: the ones the options set, or else the new logger and the
    client name ["GO MIDI Client"].  The filter, the level and the file path
    are those the options set; no filter is made up, and the test that
    defaults the level changes nothing.  The logger's level is set to the
    level of the options. *)
Theorem applyDefaultOptions_complete (NewZapLogger : Logger)
    (SetLevel : Logger -> LogLevel -> Call unit) (opts : list Option) :
  ((exists r, applyDefaultOptions NewZapLogger SetLevel opts = Returns r) <->
   (exists given,
      apply_options opts zero_options = Returns given
      /\ SetLevel (match opt_Logger given with Some l => l | None => NewZapLogger end)
                  (opt_LogLevel given) = Returns tt))
  /\ (In nil_Option opts ->
      forall r, applyDefaultOptions NewZapLogger SetLevel opts <> Returns r)
  /\ (forall given,
        apply_options opts zero_options = Returns given ->
        SetLevel (match opt_Logger given with Some l => l | None => NewZapLogger end)
                 (opt_LogLevel given) = Returns tt ->
        exists options l config,
          applyDefaultOptions NewZapLogger SetLevel opts =
            Returns (options, None, (l, opt_LogLevel given))
          /\ opt_Logger options = Some l
          /\ l = match opt_Logger given with Some l' => l' | None => NewZapLogger end
          /\ opt_CoreMIDIConfig options = Some config
          /\ config = match opt_CoreMIDIConfig given with
                      | Some c => c
                      | None => mkCoreMIDIConfig "GO MIDI Client"
                      end
          /\ opt_LogLevel options = opt_LogLevel given
          /\ opt_MIDIEventFilter options = opt_MIDIEventFilter given
          /\ opt_LogFilePath options = opt_LogFilePath given).
Proof.
  split; [|split].
  - split.
    + intros [r Hr]. destruct (apply_options opts zero_options) as [given| |] eqn:Ha.
      * exists given. split; [reflexivity|].
        rewrite (applyDefaultOptions_parts _ _ _ _ Ha) in Hr.
        destruct (SetLevel _ _) as [[]| |]; [reflexivity | discriminate | discriminate].
      * unfold applyDefaultOptions in Hr. rewrite Ha in Hr. discriminate.
      * unfold applyDefaultOptions in Hr. rewrite Ha in Hr. discriminate.
    + intros (given & Ha & Hs).
      rewrite (applyDefaultOptions_parts _ _ _ _ Ha), Hs. eexists. reflexivity.
  - intros Hin r Hr. unfold applyDefaultOptions in Hr.
    destruct (apply_options opts zero_options) eqn:Ha; try discriminate.
    exact (apply_options_nil_Option _ _ Hin _ Ha).
  - intros given Ha Hs.
    destruct (with_defaults_parts NewZapLogger given) as (Hl & Hc & Hlv & Hf & Hp).
    eexists _, _, _. split.
    { rewrite (applyDefaultOptions_parts _ _ _ _ Ha), Hs. reflexivity. }
    split; [exact Hl|]. split; [reflexivity|].
    split; [exact Hc|]. split; [reflexivity|]. auto.
Qed.

(** An instance: the options of the example programs, and a logger whose
    [SetLevel] returns. *)
Lemma applyDefaultOptions_complete_witness :
  exists options,
    applyDefaultOptions 0%nat (fun _ _ => Returns tt)
      [WithLogger (Some 1%nat); WithLogLevel (LogLevel_of InfoLevel);
       WithMIDIEventFilter (mkFilter [NoteOn; NoteOff])] =
      Returns (options, None, (1%nat, 0))
    /\ opt_Logger options = Some 1%nat
    /\ opt_CoreMIDIConfig options = Some (mkCoreMIDIConfig "GO MIDI Client")
    /\ opt_MIDIEventFilter options = Some (mkFilter [NoteOn; NoteOff]).
Proof.
  destruct (applyDefaultOptions_complete 0%nat (fun _ _ => Returns tt)
              [WithLogger (Some 1%nat); WithLogLevel (LogLevel_of InfoLevel);
               WithMIDIEventFilter (mkFilter [NoteOn; NoteOff])]) as (_ & _ & H).
  destruct (H (mkClientOptions (Some 1%nat) 0 "" (Some (mkFilter [NoteOn; NoteOff])) None)
              eq_refl eq_refl)
    as (options & l & config & Hr & Hl & Hl' & Hc & Hc' & _ & Hf & _).
  exists options. subst l config. simpl in *. repeat split; assumption.
Defined.

(** An option of the package returns, having set its field and left the
    other fields as they were. *)
Lemma With_sets (o : PackageOption) (options : ClientOptions) :
  exists options',
    call_Option (With o) options = Returns options'
    /\ holds o options'
    /\ (forall o', same_field (sets o) (sets o') = false ->
                   holds o' options -> holds o' options').
Proof.
  destruct o; simpl; eexists; (split; [reflexivity|]); (split; [reflexivity|]);
    intros [] Hf Ho'; simpl in *; try discriminate; exact Ho'.
Qed.

(** Options of the package for other fields keep what an option set. *)
Lemma With_others_keep (o : PackageOption) (post : list PackageOption)
    (options : ClientOptions) :
  forallb (fun o' => negb (same_field (sets o') (sets o))) post = true ->
  holds o options ->
  exists given,
    apply_options (map With post) options = Returns given /\ holds o given.
Proof.
  revert options. induction post as [|o' post IH]; intros options Hpost Ho; simpl.
  - exists options. auto.
  - simpl in Hpost. apply andb_true_iff in Hpost. destruct Hpost as [Hf Hpost].
    apply negb_true_iff in Hf.
    destruct (With_sets o' options) as (options' & Hc & _ & Hkeep).
    rewrite Hc. apply IH; [exact Hpost|]. apply Hkeep; assumption.
Qed.

(** The options are applied in their order, so the last one given for a
    field is the one that holds, whatever options come before it (so long as
    they return) and whichever options of the package for other fields come
    after it.  This is so for the filter, the level, the configuration and
    the logger; when the logger's [SetLevel] returns, [applyDefaultOptions]
    returns these very values, the level being the one the logger is set
    to, except that a nil logger is replaced by the new one. *)
Theorem last_option_wins (NewZapLogger : Logger)
    (SetLevel : Logger -> LogLevel -> Call unit) (pre : list Option)
    (o : PackageOption) (post : list PackageOption) (mid : ClientOptions) :
  apply_options pre zero_options = Returns mid ->
  forallb (fun o' => negb (same_field (sets o') (sets o))) post = true ->
  exists given,
    apply_options (pre ++ With o :: map With post)%list zero_options = Returns given
    /\ holds o given
    /\ (SetLevel (match opt_Logger given with Some l => l | None => NewZapLogger end)
                 (opt_LogLevel given) = Returns tt ->
        exists options l,
          applyDefaultOptions NewZapLogger SetLevel
                              (pre ++ With o :: map With post)%list =
            Returns (options, None, (l, opt_LogLevel options))
          /\ opt_Logger options = Some l
          /\ match o with
             | OfLogger None => l = NewZapLogger
             | _ => holds o options
             end).
Proof.
  intros Hpre Hpost.
  destruct (With_sets o mid) as (mid' & Hc & Ho & _).
  destruct (With_others_keep o post mid' Hpost Ho) as (given & Hg & Hgiven).
  assert (apply_options (pre ++ With o :: map With post)%list zero_options
          = Returns given) as Ha.
  { rewrite apply_options_app, Hpre. simpl. rewrite Hc. exact Hg. }
  exists given. split; [exact Ha|]. split; [exact Hgiven|].
  intros Hs.
  destruct (with_defaults_parts NewZapLogger given) as (Hl & Hcfg & Hlv & Hf & Hp).
  eexists _, _. split.
  { rewrite (applyDefaultOptions_parts _ _ _ _ Ha), Hs, Hlv. reflexivity. }
  split; [exact Hl|].
  destruct o as [[l'|]|level|filter|config]; simpl in *.
  - rewrite Hl, Hgiven. reflexivity.
  - rewrite Hgiven. reflexivity.
  - rewrite Hlv. exact Hgiven.
  - rewrite Hf. exact Hgiven.
  - rewrite Hcfg, Hgiven. reflexivity.
Qed.

(** An instance: two filters are given, with a level and a logger after
    them; the second filter holds. *)
Lemma last_option_wins_witness :
  exists options,
    applyDefaultOptions 0%nat (fun _ _ => Returns tt)
      [WithMIDIEventFilter (mkFilter [NoteOn]);
       WithMIDIEventFilter (mkFilter [NoteOff]);
       WithLogLevel 2; WithLogger (Some 1%nat)] =
      Returns (options, None, (1%nat, 2))
    /\ opt_MIDIEventFilter options = Some (mkFilter [NoteOff]).
Proof.
  destruct (last_option_wins 0%nat (fun _ _ => Returns tt)
              [WithMIDIEventFilter (mkFilter [NoteOn])]
              (OfMIDIEventFilter (mkFilter [NoteOff]))
              [OfLogLevel 2; OfLogger (Some 1%nat)]
              (mkClientOptions None 0 "" (Some (mkFilter [NoteOn])) None)
              eq_refl eq_refl)
    as (given & Ha & Hg & H).
  injection Ha as <-.
  destruct (H eq_refl) as (options & l & Hr & Hl & Ho).
  exists options. split; [|exact Ho].
  cbn [app map With] in Hr. rewrite Hr.
  vm_compute in Hr. injection Hr as Hopts Hl' Hlv.
  subst l options. reflexivity.
Defined.

(** ** The factory *)

(** The map lookup of [NewClient], resolved. *)
Lemma NewClient_cases {W} (GOOS : string)
    (coremidi_NewClient : string -> option error) (heap : list Chan)
    (windows_NewMIDIClient : ClientOptions -> Outcome (ClientMIDI W + midi_error))
    (opts : ClientOptions) :
  NewClient GOOS coremidi_NewClient heap windows_NewMIDIClient opts =
    if String.eqb GOOS "darwin"
    then mididarwin_NewMIDIClient coremidi_NewClient heap opts
    else if String.eqb GOOS "windows"
    then windows_NewMIDIClient opts
    else Returned (inr (UnsupportedOS GOOS)).
Proof.
  unfold NewClient, clientInitializers, mididarwin_pkg, midiwindows_pkg. simpl.
  destruct (String.eqb GOOS "darwin"); [reflexivity|].
  destruct (String.eqb GOOS "windows"); reflexivity.
Qed.

(** [NewClient] never hands out a dummy client.  In a build for darwin the
    map gives the CoreMIDI constructor, which returns the CoreMIDI client or
    an error; in a build for windows it gives the Windows constructor; and
    in a build for any other system, where both packages are their dummies,
    the name of the system is not in the map and the answer is the
    unsupported-system error. *)
Theorem NewClient_never_dummy {W} (GOOS : string)
    (coremidi_NewClient : string -> option error) (heap : list Chan)
    (windows_NewMIDIClient : ClientOptions -> Outcome (ClientMIDI W + midi_error))
    (opts : ClientOptions) :
  (GOOS <> "windows" ->
   forall d,
     NewClient GOOS coremidi_NewClient heap windows_NewMIDIClient opts
       <> Returned (inl (DarwinDummy d))
     /\ NewClient GOOS coremidi_NewClient heap windows_NewMIDIClient opts
          <> Returned (inl (WindowsDummy d)))
  /\ (GOOS = "windows" ->
      NewClient GOOS coremidi_NewClient heap windows_NewMIDIClient opts
        = windows_NewMIDIClient opts)
  /\ (GOOS <> "darwin" -> GOOS <> "windows" ->
      NewClient GOOS coremidi_NewClient heap windows_NewMIDIClient opts
        = Returned (inr (UnsupportedOS GOOS))).
Proof.
  rewrite NewClient_cases. split; [|split].
  - intros Hw d. apply String.eqb_neq in Hw. rewrite Hw.
    destruct (String.eqb GOOS "darwin"); [|split; discriminate].
    unfold mididarwin_NewMIDIClient, NewMIDIClient.
    destruct (opt_CoreMIDIConfig opts) as [config|]; [|split; discriminate].
    destruct (coremidi_NewClient (ClientName config)); [split; discriminate|].
    destruct (opt_Logger opts); split; discriminate.
  - intros ->. reflexivity.
  - intros Hd Hw. apply String.eqb_neq in Hd. apply String.eqb_neq in Hw.
    rewrite Hd, Hw. reflexivity.
Qed.

(** ** NewMIDIClient of the facade *)

(** With a nil option among those given, [midi.NewMIDIClient] does not
    return. *)
Lemma midi_NewMIDIClient_nil_Option {W} (GOOS : string) (NewZapLogger : Logger)
    (SetLevel : Logger -> LogLevel -> Call unit)
    (coremidi_NewClient : string -> option error) (heap : list Chan)
    (windows_NewMIDIClient : ClientOptions -> Outcome (ClientMIDI W + midi_error))
    (opts : list Option) :
  In nil_Option opts ->
  forall r, midi_NewMIDIClient GOOS NewZapLogger SetLevel coremidi_NewClient heap
                               windows_NewMIDIClient opts <> Returns r.
Proof.
  intros Hin r. unfold midi_NewMIDIClient, applyDefaultOptions.
  destruct (apply_options opts zero_options) as [given| |] eqn:Ha;
    [|discriminate|discriminate].
  destruct (apply_options_nil_Option _ _ Hin _ Ha).
Qed.

(** Take options none of which is nil and each of which returns, and a
    logger whose [SetLevel] returns.  In a build for darwin
    [midi.NewMIDIClient] then returns: the binding is asked for a client
    with the configured name, or ["GO MIDI Client"] when none is configured;
    when it refuses, its error is returned; otherwise the client is new,
    with the filter that the options set and with none when they set none,
    in which case no command is filtered out.  In a build for windows the
    answer is that of the Windows constructor on the options with their
    defaults, and in a build for any other system it is the
    unsupported-system error, whatever the options. *)
Theorem midi_NewMIDIClient_result {W} (GOOS : string) (NewZapLogger : Logger)
    (SetLevel : Logger -> LogLevel -> Call unit)
    (coremidi_NewClient : string -> option error) (heap : list Chan)
    (windows_NewMIDIClient : ClientOptions -> Outcome (ClientMIDI W + midi_error))
    (opts : list Option) (given : ClientOptions) :
  apply_options opts zero_options = Returns given ->
  SetLevel (match opt_Logger given with Some l => l | None => NewZapLogger end)
           (opt_LogLevel given) = Returns tt ->
  let name := match opt_CoreMIDIConfig given with
              | Some config => ClientName config
              | None => "GO MIDI Client"
              end in
  (GOOS = "darwin" ->
   midi_NewMIDIClient GOOS NewZapLogger SetLevel coremidi_NewClient heap
                      windows_NewMIDIClient opts =
     Returns (match coremidi_NewClient name with
              | Some err => inr (ClientError err)
              | None => inl (CoreMIDIClient (fresh (opt_MIDIEventFilter given) heap))
              end)
   /\ (opt_MIDIEventFilter given = None ->
       forall command,
         filtered_out (midiEventFilter (client (fresh (opt_MIDIEventFilter given) heap)))
                      command = false))
  /\ (GOOS = "windows" ->
      midi_NewMIDIClient GOOS NewZapLogger SetLevel coremidi_NewClient heap
                         windows_NewMIDIClient opts =
        Call_of_Outcome (windows_NewMIDIClient (with_defaults NewZapLogger given)))
  /\ (GOOS <> "darwin" -> GOOS <> "windows" ->
      midi_NewMIDIClient GOOS NewZapLogger SetLevel coremidi_NewClient heap
                         windows_NewMIDIClient opts =
        Returns (inr (UnsupportedOS GOOS))).
Proof.
  intros Ha Hs name.
  destruct (with_defaults_parts NewZapLogger given) as (Hl & Hc & Hlv & Hf & Hp).
  unfold midi_NewMIDIClient.
  rewrite (applyDefaultOptions_parts _ _ _ _ Ha), Hs, NewClient_cases.
  split; [|split].
  - intros ->. simpl. split.
    + unfold mididarwin_NewMIDIClient, NewMIDIClient. rewrite Hc, Hl, Hf.
      unfold name. destruct (opt_CoreMIDIConfig given) as [config|]; simpl;
        match goal with |- context [coremidi_NewClient ?n] =>
          destruct (coremidi_NewClient n) end; reflexivity.
    + intros -> command. reflexivity.
  - intros ->. reflexivity.
  - intros Hd Hw.
    apply String.eqb_neq in Hd. apply String.eqb_neq in Hw.
    rewrite Hd, Hw. reflexivity.
Qed.

(** An instance: a build for darwin, given the options of the example
    programs, with a binding that makes the client. *)
Lemma midi_NewMIDIClient_result_witness :
  midi_NewMIDIClient (W := unit) "darwin" 0%nat (fun _ _ => Returns tt)
                     (fun _ => None) [make_chan 100]
                     (fun _ => NilDereference)
                     [WithLogger (Some 1%nat); WithLogLevel (LogLevel_of InfoLevel);
                      WithMIDIEventFilter (mkFilter [NoteOn; NoteOff])] =
    Returns (inl (CoreMIDIClient (fresh (Some (mkFilter [NoteOn; NoteOff]))
                                        [make_chan 100]))).
Proof.
  destruct (midi_NewMIDIClient_result (W := unit) "darwin" 0%nat (fun _ _ => Returns tt)
              (fun _ => None) [make_chan 100] (fun _ => NilDereference)
              [WithLogger (Some 1%nat); WithLogLevel (LogLevel_of InfoLevel);
               WithMIDIEventFilter (mkFilter [NoteOn; NoteOff])]
              (mkClientOptions (Some 1%nat) 0 "" (Some (mkFilter [NoteOn; NoteOff])) None)
              eq_refl eq_refl) as [H _].
  destruct (H eq_refl) as [Hr _]. exact Hr.
Defined.

(** ** The dummy clients *)

(** On a dummy client [ListDevices] and [SelectDevice] return an error and
    [Stop] returns nil, whatever the arguments and whatever was called
    before; and after any calls the log holds, after what it held, one
    warning for each call, in the order of the calls. *)
Theorem dummy_calls_only_warn (ops : list DummyOp) (d : DummyMIDIClient) :
  (forall o d', fst (dummy_perform o d') <> None <->
                o = DummyListDevices \/ exists deviceID, o = DummySelectDevice deviceID)
  /\ exists warnings,
       dummy_logged (dummy_run ops d) = (dummy_logged d ++ warnings)%list
       /\ length warnings = length ops
       /\ Forall (fun e => level e = WarnLevel) warnings.
Proof.
  split.
  - intros o d'. destruct o; simpl; split;
      try (intros H; contradiction);
      try (intros _; discriminate);
      try (intros [H|[x H]]; discriminate H); eauto.
  - revert d. induction ops as [|o rest IH]; intros d.
    + exists []. rewrite app_nil_r. repeat split. constructor.
    + destruct (IH (snd (dummy_perform o d))) as (ws & Hlog & Hlen & Hall).
      assert (exists e, dummy_logged (snd (dummy_perform o d))
                        = (dummy_logged d ++ [e])%list /\ level e = WarnLevel)
        as (e & He & Hlev) by (destruct o; eexists; split; reflexivity).
      exists (e :: ws). simpl. rewrite Hlog, He, <- app_assoc. simpl.
      repeat split; [congruence | constructor; assumption].
Qed.

(** * Capture across other calls *)

(** [Stop] calls on an idle client on which [Stop] has run change nothing. *)
Lemma Stop_times_done (n : nat) (w : World) :
  idle w -> stopOnce (client w) = true ->
  Stop_times n w = Ok (repeat None n) w.
Proof.
  intros Hi Hso. destruct n as [|n]; [reflexivity|].
  rewrite Stop_times_idle by exact Hi.
  unfold after_Stop. rewrite Hso. reflexivity.
Qed.

(** Selecting a device does not interrupt capture.  With the mutex free
    [SelectDevice] returns, whatever the index and whatever the native
    layer answers, and the stored channel, the capturing flag, the filter,
    the [sync.Once] and the channels are as before: the events of the device
    now connected go where those of the previous one went. *)
Theorem SelectDevice_keeps_capture (w : World) (native : Native) (deviceID : Z) :
  mu (client w) = false ->
  exists e w',
    SelectDevice deviceID native w = Ok e w'
    /\ eventChannel (client w') = eventChannel (client w)
    /\ capturing (client w') = capturing (client w)
    /\ midiEventFilter (client w') = midiEventFilter (client w)
    /\ stopOnce (client w') = stopOnce (client w)
    /\ wg (client w') = wg (client w)
    /\ chans w' = chans w.
Proof.
  intros Hmu.
  destruct (SelectDevice_disconnected w native deviceID Hmu) as (e & w' & HS & _).
  destruct (SelectDevice_frame _ _ _ _ _ Hmu HS) as (H1 & H2 & _ & H4 & H5 & H6 & H7).
  exists e, w'. auto 10.
Qed.

(** An instance: the device is selected again on a capturing client. *)
Lemma SelectDevice_keeps_capture_witness :
  let w := mkWorld (mkClientMid (Some 0%nat) 1%nat (Some 7%nat) None false true 0%nat false)
                   [] [make_chan 1] [] in
  exists e w',
    SelectDevice 0 oneSource w = Ok e w'
    /\ eventChannel (client w') = eventChannel (client w)
    /\ capturing (client w') = capturing (client w)
    /\ midiEventFilter (client w') = midiEventFilter (client w)
    /\ stopOnce (client w') = stopOnce (client w)
    /\ wg (client w') = wg (client w)
    /\ chans w' = chans w.
Proof. intros w. apply (SelectDevice_keeps_capture w oneSource 0). reflexivity. Defined.

(** A [Stop] on a client that is not capturing uses up the [sync.Once].
    Take an idle client that is not capturing and call [Stop], start capture
    on a channel, and call [Stop] any number of times: all calls return, and
    capture is still on.  A payload that passes the filter is put on the
    channel, and the connection was neither disconnected nor cleared. *)
Theorem Stop_before_StartCapture_disables_Stop (w : World) (ch : ChanRef) (c c' : Chan)
    (n : nat) (d0 d1 d2 : byte) (rest : list byte) (now : Z) :
  idle w ->
  capturing (client w) = false ->
  chans w !! ch = Some c ->
  filtered_out (midiEventFilter (client w)) d0 = false ->
  trySend (mkMIDI (uint64 now) d0 d1 d2) c = Sent c' ->
  exists w',
    (Stop ;; StartCapture (Some ch) ;; Stop_times n ;;
     handleMIDIMessage (d0 :: d1 :: d2 :: rest) now) w = Ok tt w'
    /\ chans w' = <[ch := c']> (chans w)
    /\ capturing (client w') = true
    /\ eventChannel (client w') = Some ch
    /\ portConn (client w') = portConn (client w)
    /\ disconnected w' = disconnected w.
Proof.
  intros Hi Hcap Hc Hf Hs.
  assert (idle (after_Stop w)) as Hi1 by (apply after_Stop_idle; exact Hi).
  assert (capturing (client (after_Stop w)) = false
          /\ chans (after_Stop w) = chans w
          /\ midiEventFilter (client (after_Stop w)) = midiEventFilter (client w)
          /\ portConn (client (after_Stop w)) = portConn (client w)
          /\ disconnected (after_Stop w) = disconnected w) as (Hcap1 & Hch1 & Hf1 & Hp1 & Hd1).
  { unfold after_Stop. destruct (stopOnce (client w)); [auto|].
    rewrite Hcap. simpl. auto. }
  set (w2 := set_capturing true
               (set_eventChannel (Some ch)
                  (logging [mkLog InfoLevel "Starting MIDI event capture" []]
                     (after_Stop w)))).
  assert (idle w2) as Hi2 by (destruct Hi1; split; assumption).
  assert (stopOnce (client w2) = true) as Hso2 by apply after_Stop_done.
  eexists. split.
  - unfold bind at 1. rewrite (Stop_idle _ Hi).
    unfold bind at 1. rewrite (StartCapture_Some _ _ (proj1 Hi1) Hcap1). fold w2.
    unfold bind at 1. rewrite (Stop_times_done n w2 Hi2 Hso2).
    apply callback_send with (c := c).
    + reflexivity.
    + change (chans w2) with (chans (after_Stop w)). rewrite Hch1. exact Hc.
    + change (midiEventFilter (client w2)) with (midiEventFilter (client (after_Stop w))).
      rewrite Hf1. exact Hf.
    + exact Hs.
  - simpl. rewrite Hch1. repeat split; assumption.
Qed.

(** An instance: [Stop] on a new client with a device selected, then capture
    on channel 0, three more calls of [Stop], and a Note On. *)
Lemma Stop_before_StartCapture_disables_Stop_witness :
  let w := mkWorld (mkClientMid None 1%nat (Some 7%nat) None false false 0%nat false)
                   [] [make_chan 1] [] in
  exists w',
    (Stop ;; StartCapture (Some 0%nat) ;; Stop_times 3 ;;
     handleMIDIMessage [x90; x3c; x64] 5) w = Ok tt w'
    /\ chans w' = [mkChan 1 [mkMIDI 5 x90 x3c x64] 0 [] false]
    /\ capturing (client w') = true
    /\ eventChannel (client w') = Some 0%nat
    /\ portConn (client w') = Some 7%nat
    /\ disconnected w' = [].
Proof.
  intros w.
  apply (Stop_before_StartCapture_disables_Stop w 0%nat (make_chan 1)
           (mkChan 1 [mkMIDI 5 x90 x3c x64] 0 [] false) 3 x90 x3c x64 [] 5);
    try reflexivity. split; reflexivity.
Defined.

(** An instance for the earlier [Stop] called twice: a new client with a
    device selected. *)
Lemma Legacy_Stop_twice_witness :
  let w := mkWorld (mkClientMid None 1%nat (Some 7%nat) None false false 0%nat false)
                   [] [] [] in
  exists w1 w2,
    Legacy.Stop w = Ok None w1
    /\ Legacy.Stop w1 = Ok None w2
    /\ portConn (client w1) = None
    /\ disconnected w1 = [7%nat]
    /\ disconnected w2 = disconnected w1.
Proof. intros w. apply (Legacy_Stop_twice w); reflexivity. Defined.

(** * The client of the Windows build *)

(** ** What its callback decodes *)

(** The status nibble has no channel bits. *)
Lemma status_nibble_low_zero (status : byte) :
  Z.land (Z_of_byte (status_nibble status)) 0x0F = 0.
Proof. destruct status; reflexivity. Qed.

(** [status & 0xF0] on a byte is its status nibble. *)
Lemma mask_is_status_nibble (status : byte) :
  byte_of_Z (Z.land (Z_of_byte status) 0xF0) = status_nibble status.
Proof. destruct status; reflexivity. Qed.

(** Masking with [0xFF] before the conversion to a byte changes nothing. *)
Lemma byte_of_Z_mask (x : Z) : byte_of_Z (Z.land x 0xFF) = byte_of_Z x.
Proof.
  unfold byte_of_Z. rewrite <- Z.land_assoc. reflexivity.
Qed.

(** The event of the Windows callback: the command is the status nibble of
    the low byte of [dwParam1], the note and the velocity are its second and
    third byte. *)
Lemma Windows_decode (dwParam1 now : Z) :
  Windows.decode dwParam1 now =
    mkMIDI (uint64 now) (status_nibble (byte_of_Z dwParam1))
           (byte_of_Z (Z.shiftr dwParam1 8)) (byte_of_Z (Z.shiftr dwParam1 16)).
Proof.
  unfold Windows.decode. rewrite mask_is_status_nibble, !byte_of_Z_mask. reflexivity.
Qed.

(** A data message arrives at a Windows client that has a channel stored;
    the filter lets the status nibble pass and the channel is ready.  The
    callback returns 0 having sent the event whose command is the status
    nibble, without the channel bits, whose note and velocity are the
    second and third byte of [dwParam1] and whose timestamp is the clock
    reading as a [uint64]; the client is as it was and the log has grown by
    at most one debug entry. *)
Theorem Windows_callback_sends_status_nibble (w : Windows.World) (ch : ChanRef)
    (c c' : Chan) (dwParam1 dwParam2 now : Z) :
  Windows.eventChannel (Windows.client w) = Some (Some ch) ->
  Windows.chans w !! ch = Some c ->
  dwParam2 <> 0 ->
  filtered_out (Windows.midiEventFilter (Windows.client w))
               (status_nibble (byte_of_Z dwParam1)) = false ->
  trySend (mkMIDI (uint64 now) (status_nibble (byte_of_Z dwParam1))
                  (byte_of_Z (Z.shiftr dwParam1 8))
                  (byte_of_Z (Z.shiftr dwParam1 16))) c = Sent c' ->
  exists entries,
    Windows.midiInCallback Windows.MIM_DATA dwParam1 dwParam2 now w =
      Windows.Ok 0 (Windows.mkWorld (Windows.client w)
                                    (Windows.logged w ++ entries)
                                    (<[ch := c']> (Windows.chans w)))
    /\ (length entries <= 1)%nat
    /\ Forall (fun e => level e = DebugLevel) entries
    /\ Z.land (Z_of_byte (status_nibble (byte_of_Z dwParam1))) 0x0F = 0.
Proof.
  intros Hch Hc Hp Hf Hs.
  unfold Windows.midiInCallback.
  change (Windows.MIM_DATA =? Windows.MIM_OPEN)%Z with false.
  change (Windows.MIM_DATA =? Windows.MIM_CLOSE)%Z with false.
  change (Windows.MIM_DATA =? Windows.MIM_DATA)%Z with true.
  cbv iota.
  apply Z.eqb_neq in Hp. rewrite Hp, Windows_decode. cbn [Command Note Velocity].
  rewrite Hf.
  match goal with
  | |- context [if ?b then Windows.log DebugLevel ?t1 w
                else if ?b2 then Windows.log DebugLevel ?t2 w else w] =>
      destruct b; [exists [mkLog DebugLevel t1 []]
                  | destruct b2; [exists [mkLog DebugLevel t2 []] | exists []]]
  end; unfold Windows.log;
    cbn [Windows.client Windows.eventChannel Windows.chans Windows.logged];
    rewrite Hch; unfold Windows.send_or_discard;
    cbn [Windows.chans Windows.client Windows.logged]; rewrite Hc, Hs;
    rewrite ?app_nil_r;
    (split; [destruct w; reflexivity|]);
    (split; [simpl; lia|]);
    (split; [repeat constructor | apply status_nibble_low_zero]).
Qed.

(** An instance: a Note On of channel 2, middle C, velocity 100, at a client
    with the filter of the example programs and an empty channel of capacity
    1. *)
Lemma Windows_callback_sends_status_nibble_witness :
  let w := Windows.mkWorld
             (Windows.mkClientMid (Some (Some 0%nat)) 5 true false
                                  (Some (mkFilter [NoteOn; NoteOff])))
             [] [make_chan 1] in
  exists entries,
    Windows.midiInCallback Windows.MIM_DATA 0x643C91 1 7 w =
      Windows.Ok 0 (Windows.mkWorld (Windows.client w) entries
                                    [mkChan 1 [mkMIDI 7 x90 x3c x64] 0 [] false])
    /\ (length entries <= 1)%nat.
Proof.
  intros w.
  destruct (Windows_callback_sends_status_nibble w 0%nat (make_chan 1)
              (mkChan 1 [mkMIDI 7 x90 x3c x64] 0 [] false) 0x643C91 1 7)
    as (entries & H & Hlen & _); try reflexivity; [discriminate|].
  exists entries. split; [exact H | exact Hlen].
Defined.

(** The same Note On of channel 2 at both clients, each capturing on an
    empty channel without filter: the Darwin client delivers the command
    [0x91], the Windows client [0x90]. *)
Lemma siblings_decode_differently :
  exists w' ww',
    (StartCapture (Some 0%nat) ;; handleMIDIMessage [x91; x3c; x64] 5)
      (fresh None [make_chan 1]) = Ok tt w'
    /\ queue <$> (chans w' !! 0%nat) = Some [mkMIDI 5 x91 x3c x64]
    /\ Windows.midiInCallback Windows.MIM_DATA 0x643C91 1 5
         (Windows.mkWorld (Windows.mkClientMid (Some (Some 0%nat)) 5 true false None)
                          [] [make_chan 1]) = Windows.Ok 0 ww'
    /\ queue <$> (Windows.chans ww' !! 0%nat) = Some [mkMIDI 5 x90 x3c x64].
Proof.
  eexists _, _. split; [vm_compute; reflexivity|].
  split; [reflexivity|].
  split; [vm_compute; reflexivity|]. reflexivity.
Qed.

(** ** StartCapture and Stop of the Windows client *)

(** Without a device the Windows [StartCapture] refuses: it logs that no
    device is selected and returns, the client and the channels as they
    were, no channel stored. *)
Theorem Windows_StartCapture_without_device (w : Windows.World)
    (eventChannel : option ChanRef) (midiInStart : Windows.Answer) :
  Windows.mu (Windows.client w) = false ->
  Windows.portConn (Windows.client w) = false ->
  Windows.StartCapture eventChannel midiInStart w =
    Windows.Ok tt
      (Windows.mkWorld (Windows.client w)
         (Windows.logged w ++
          [mkLog ErrorLevel "Cannot start capture: No MIDI device selected" []])
         (Windows.chans w)).
Proof.
  intros Hmu Hp. unfold Windows.StartCapture. rewrite Hmu, Hp. reflexivity.
Qed.

(** An instance: the first call on a new client. *)
Lemma Windows_StartCapture_without_device_witness :
  Windows.StartCapture (Some 0%nat) (Windows.mkAnswer 0 "")
                       (Windows.fresh None [make_chan 1]) =
    Windows.Ok tt
      (Windows.mkWorld (Windows.client (Windows.fresh None [make_chan 1]))
         [mkLog InfoLevel "MIDI client created for Windows" [];
          mkLog ErrorLevel "Cannot start capture: No MIDI device selected" []]
         [make_chan 1]).
Proof.
  apply (Windows_StartCapture_without_device (Windows.fresh None [make_chan 1])
           (Some 0%nat) (Windows.mkAnswer 0 "")); reflexivity.
Defined.

(** With a device and a handle, and nothing stored yet, it stores the
    channel; what it logs depends on the answer of [midiInStart]. *)
Lemma Windows_StartCapture_with_device (w : Windows.World) (ch : option ChanRef)
    (midiInStart : Windows.Answer) :
  Windows.mu (Windows.client w) = false ->
  Windows.portConn (Windows.client w) = true ->
  Windows.handle (Windows.client w) <> 0 ->
  Windows.eventChannel (Windows.client w) = None ->
  exists w',
    Windows.StartCapture ch midiInStart w = Windows.Ok tt w'
    /\ Windows.eventChannel (Windows.client w') = Some ch
    /\ Windows.portConn (Windows.client w') = true
    /\ Windows.chans w' = Windows.chans w.
Proof.
  intros Hmu Hp Hh He. unfold Windows.StartCapture. rewrite Hmu, Hp, He. simpl.
  apply Z.eqb_neq in Hh. rewrite Hh.
  destruct (Windows.r1 midiInStart =? 0)%Z; simpl; eexists; split;
    try reflexivity; simpl; auto.
Qed.

(** [Stop] of the Windows client returns nil only on a client without a
    device, having logged a warning.  On a client with a device and a handle
    it stops and closes the device, marks the client as not connected, and
    then panics in [Store(nil)] instead of returning; the mutex is free
    afterwards. *)
Theorem Windows_Stop_returns_nil_iff (w : Windows.World)
    (midiInStop midiInClose : Windows.Answer) :
  Windows.mu (Windows.client w) = false ->
  ((exists w', Windows.Stop midiInStop midiInClose w = Windows.Ok None w') <->
   Windows.portConn (Windows.client w) = false)
  /\ (Windows.portConn (Windows.client w) = true ->
      Windows.handle (Windows.client w) <> 0 ->
      Windows.r1 midiInStop = 0 ->
      Windows.r1 midiInClose = 0 ->
      exists w',
        Windows.Stop midiInStop midiInClose w =
          Windows.Panicked "sync/atomic: store of nil value into Value" w'
        /\ Windows.portConn (Windows.client w') = false
        /\ Windows.handle (Windows.client w') = 0
        /\ Windows.mu (Windows.client w') = false
        /\ Windows.eventChannel (Windows.client w') = Windows.eventChannel (Windows.client w)
        /\ Windows.logged w' = Windows.logged w).
Proof.
  intros Hmu. split.
  - unfold Windows.Stop, Windows.stopCapture. rewrite Hmu.
    destruct (Windows.portConn (Windows.client w)); simpl.
    + split; [|discriminate]. intros [w' H]. exfalso.
      destruct (Windows.handle (Windows.client w) =? 0)%Z; [discriminate|].
      destruct (Windows.r1 midiInStop =? 0)%Z; simpl in H; [|discriminate].
      destruct (Windows.r1 midiInClose =? 0)%Z; simpl in H; discriminate.
    + split; [reflexivity|]. intros _. eexists. reflexivity.
  - intros Hp Hh Hs Hc. unfold Windows.Stop, Windows.stopCapture.
    apply Z.eqb_neq in Hh. rewrite Hmu, Hp, Hh, Hs, Hc. simpl.
    eexists. split; [reflexivity|]. simpl. rewrite Hmu. repeat split; reflexivity.
Qed.

(** An instance: a client with a device selected and capture started. *)
Lemma Windows_Stop_returns_nil_iff_witness :
  let w := Windows.mkWorld (Windows.mkClientMid (Some (Some 0%nat)) 5 true false None)
                           [] [make_chan 1] in
  exists w',
    Windows.Stop (Windows.mkAnswer 0 "") (Windows.mkAnswer 0 "") w =
      Windows.Panicked "sync/atomic: store of nil value into Value" w'
    /\ Windows.portConn (Windows.client w') = false
    /\ Windows.handle (Windows.client w') = 0.
Proof.
  intros w.
  destruct (Windows_Stop_returns_nil_iff w (Windows.mkAnswer 0 "") (Windows.mkAnswer 0 ""))
    as [_ H]; [reflexivity|].
  destruct H as (w' & Hr & Hp & Hh & _); try reflexivity; [discriminate|].
  exists w'. repeat split; assumption.
Defined.

(** On new clients, no device selected, the Darwin [StartCapture] stores the
    channel and sets the capturing flag where the Windows [StartCapture]
    stores nothing and reports the missing device. *)
Lemma siblings_StartCapture_differently :
  exists w' ww',
    StartCapture (Some 0%nat) (fresh None [make_chan 1]) = Ok tt w'
    /\ eventChannel (client w') = Some 0%nat
    /\ capturing (client w') = true
    /\ Windows.StartCapture (Some 0%nat) (Windows.mkAnswer 0 "")
         (Windows.fresh None [make_chan 1]) = Windows.Ok tt ww'
    /\ Windows.eventChannel (Windows.client ww') = None
    /\ last (Windows.logged ww') =
         Some (mkLog ErrorLevel "Cannot start capture: No MIDI device selected" []).
Proof.
  eexists _, _. split; [vm_compute; reflexivity|].
  split; [reflexivity|]. split; [reflexivity|].
  split; [vm_compute; reflexivity|]. split; reflexivity.
Qed.

(** ** The facade in a build for windows *)

(** With options none of which is nil and each of which returns, and a
    logger whose [SetLevel] returns, [midi.NewMIDIClient] in a build for
    windows returns the new Windows client with the filter the options
    set. *)
Theorem midi_NewMIDIClient_windows (NewZapLogger : Logger)
    (SetLevel : Logger -> LogLevel -> Call unit)
    (coremidi_NewClient : string -> option error) (heap : list Chan)
    (opts : list Option) (given : ClientOptions) :
  apply_options opts zero_options = Returns given ->
  SetLevel (match opt_Logger given with Some l => l | None => NewZapLogger end)
           (opt_LogLevel given) = Returns tt ->
  midi_NewMIDIClient "windows" NewZapLogger SetLevel coremidi_NewClient heap
                     (midiwindows_NewMIDIClient heap) opts =
    Returns (inl (WindowsClient (Windows.fresh (opt_MIDIEventFilter given) heap))).
Proof.
  intros Ha Hs.
  destruct (with_defaults_parts NewZapLogger given) as (Hl & Hc & Hlv & Hf & Hp).
  unfold midi_NewMIDIClient.
  rewrite (applyDefaultOptions_parts _ _ _ _ Ha), Hs, NewClient_cases. simpl.
  unfold midiwindows_NewMIDIClient. rewrite Hl, Hf. reflexivity.
Qed.

(** An instance: the options of the example programs. *)
Lemma midi_NewMIDIClient_windows_witness :
  midi_NewMIDIClient "windows" 0%nat (fun _ _ => Returns tt) (fun _ => None)
                     [make_chan 100] (midiwindows_NewMIDIClient [make_chan 100])
                     [WithLogger (Some 1%nat); WithLogLevel (LogLevel_of InfoLevel);
                      WithMIDIEventFilter (mkFilter [NoteOn; NoteOff])] =
    Returns (inl (WindowsClient (Windows.fresh (Some (mkFilter [NoteOn; NoteOff]))
                                               [make_chan 100]))).
Proof.
  apply (midi_NewMIDIClient_windows 0%nat (fun _ _ => Returns tt) (fun _ => None)
           [make_chan 100]
           [WithLogger (Some 1%nat); WithLogLevel (LogLevel_of InfoLevel);
            WithMIDIEventFilter (mkFilter [NoteOn; NoteOff])]
           (mkClientOptions (Some 1%nat) 0 "" (Some (mkFilter [NoteOn; NoteOff])) None));
    reflexivity.
Defined.
